(** * PyBusta indexing and search core: a shallow embedding

    The development follows [src/pybusta/core]: the catalog parser and the
    record store of [book_index.py], the tables of [database.py] and the
    query model of [models.py].

    Text is a list of characters with code points below 256. *)

From Stdlib Require Import List ZArith Ascii String DecimalString Bool Arith Lia.
Import ListNotations.

Open Scope char_scope.
Open Scope Z_scope.

Definition text := list ascii.

Definition txt (s : string) : text := list_ascii_of_string s.

(** ** Python string primitives *)

Module PyStr.

(** [str.isspace] on code points below 256. *)
Definition isspace (c : ascii) : bool :=
  let n := nat_of_ascii c in
  ((9 <=? n) && (n <=? 13) || (28 <=? n) && (n <=? 32)
   || (n =? 133) || (n =? 160))%nat.

Fixpoint lstrip (s : text) : text :=
  match s with
  | [] => []
  | c :: s' => if isspace c then lstrip s' else s
  end.

Definition rstrip (s : text) : text := rev (lstrip (rev s)).

(** [s.strip()] *)
Definition strip (s : text) : text := rstrip (lstrip s).

(** [s.split(sep)] for a one-character separator. *)
Fixpoint split (sep : ascii) (s : text) : list text :=
  match s with
  | [] => [[]]
  | c :: s' =>
      if Ascii.eqb c sep then [] :: split sep s'
      else match split sep s' with
           | f :: fs => (c :: f) :: fs
           | [] => [[c]]
           end
  end.

(** [s.replace(a, b)] for one-character [a] and [b]. *)
Definition replace (a b : ascii) (s : text) : text :=
  map (fun c => if Ascii.eqb c a then b else c) s.

(** [s.replace(a, '')] for a one-character [a]. *)
Definition remove (a : ascii) (s : text) : text :=
  filter (fun c => negb (Ascii.eqb c a)) s.

Definition in_range (lo hi : nat) (c : ascii) : bool :=
  let n := nat_of_ascii c in ((lo <=? n) && (n <=? hi))%nat.

Definition is_digit (c : ascii) : bool := in_range 48 57 c.

(** [c.isalnum()] on code points below 256: the ASCII letters and digits,
    the Latin-1 letters, and the Latin-1 superscripts and fractions. *)
Definition isalnum (c : ascii) : bool :=
  in_range 48 57 c || in_range 65 90 c || in_range 97 122 c
  || in_range 170 170 c || in_range 178 179 c || in_range 181 181 c
  || in_range 185 186 c || in_range 188 190 c
  || in_range 192 214 c || in_range 216 246 c || in_range 248 255 c.

(** [s.upper()] on code points below 256.  The three letters whose upper
    case lies outside that range are left as they are. *)
Definition upper_char (c : ascii) : ascii :=
  if in_range 97 122 c || in_range 224 246 c || in_range 248 254 c
  then ascii_of_nat (nat_of_ascii c - 32)
  else c.

Definition upper (s : text) : text := map upper_char s.

(** [s.split()]: the maximal runs of non-space characters. *)
Fixpoint split_ws (cur : text) (s : text) : list text :=
  match s with
  | [] => match cur with [] => [] | _ => [rev cur] end
  | c :: s' =>
      if isspace c
      then match cur with
           | [] => split_ws [] s'
           | _ => rev cur :: split_ws [] s'
           end
      else split_ws (c :: cur) s'
  end.

(** [sep.join(parts)] *)
Fixpoint join (sep : text) (parts : list text) : text :=
  match parts with
  | [] => []
  | [p] => p
  | p :: rest => p ++ sep ++ join sep rest
  end.

Definition digit_val (c : ascii) : option Z :=
  if is_digit c then Some (Z.of_nat (nat_of_ascii c - 48)) else None.

(** The digit part of a base-10 literal: digits, with single underscores
    allowed between two digits. [after_digit] tells whether the previous
    character was a digit. *)
Fixpoint digits (acc : Z) (after_digit : bool) (s : text) : option Z :=
  match s with
  | [] => if after_digit then Some acc else None
  | c :: s' =>
      match digit_val c with
      | Some d => digits (10 * acc + d) true s'
      | None =>
          if Ascii.eqb c "_" && after_digit
          then match s' with
               | [] => None
               | _ => digits acc false s'
               end
          else None
      end
  end.

(** [int(s)] for a string [s]; [None] stands for [ValueError]. *)
Definition int (s : text) : option Z :=
  match strip s with
  | "+" :: r => digits 0 false r
  | "-" :: r => option_map Z.opp (digits 0 false r)
  | r => digits 0 false r
  end.

End PyStr.

(** ** Catalog parser ([BookIndex._parse_book_metadata]) *)

Module Parser.
Import PyStr.

(** The field separator ['\x04']. *)
Definition SEP : ascii := ascii_of_nat 4.

(** The mapping returned by the parser.  A line that passes the length
    check sets every key, so the dict is a record; [size] has been
    converted to an integer. *)
Record BookData := mkBookData {
  bd_author : text;
  bd_genre : text;
  bd_title : text;
  bd_bookid : text;
  bd_size : Z;
  bd_format : text;
  bd_date_added : text;
  bd_language : text;
  bd_archive_file : text
}.

(** [fields[index].strip()] *)
Definition field (fields : list text) (index : nat) : text :=
  strip (nth index fields []).

Definition clean_author (raw : text) : text :=
  strip (remove ":" (replace "," " " raw)).

Definition clean_genre (raw : text) : text :=
  strip (remove ":" raw).

Definition parse_size (raw : text) : Z :=
  match int raw with
  | Some n => n
  | None => 0
  end.

Definition is_empty (s : text) : bool :=
  match s with [] => true | _ => false end.

Definition _parse_book_metadata (line archive_name : text) : option BookData :=
  let fields := split SEP (strip line) in
  if (List.length fields <? 12)%nat then None
  else
    let author := clean_author (field fields 0) in
    let title := strip (field fields 2) in
    let genre := clean_genre (field fields 1) in
    let bookid := field fields 5 in
    let size := parse_size (field fields 6) in
    if is_empty bookid || is_empty title || is_empty author then None
    else Some {| bd_author := author;
                 bd_genre := genre;
                 bd_title := title;
                 bd_bookid := bookid;
                 bd_size := size;
                 bd_format := field fields 9;
                 bd_date_added := field fields 10;
                 bd_language := field fields 11;
                 bd_archive_file := archive_name |}.

End Parser.

(** ** Exceptions and state

    A Python computation over a mutable state [S] either returns a value or
    raises; the writes made before the exception stay in the state. *)

Module Exn.

Inductive result (A : Type) : Type :=
| Ok (a : A)
| Raise (msg : text).
Arguments Ok {A} a.
Arguments Raise {A} msg.

Definition M (S A : Type) : Type := S -> S * result A.

Definition ret {S A} (a : A) : M S A := fun s => (s, Ok a).

Definition raise {S A} (msg : text) : M S A := fun s => (s, Raise msg).

Definition bind {S A B} (m : M S A) (k : A -> M S B) : M S B :=
  fun s =>
    match m s with
    | (s', Ok a) => k a s'
    | (s', Raise msg) => (s', Raise msg)
    end.

(** [try: body  except Exception as e: handler(str(e))] *)
Definition try_except {S A} (body : M S A) (handler : text -> M S A) : M S A :=
  fun s =>
    match body s with
    | (s', Ok a) => (s', Ok a)
    | (s', Raise msg) => handler msg s'
    end.

(** [try: body  finally: cleanup] *)
Definition try_finally {S A} (body : M S A) (cleanup : M S unit) : M S A :=
  fun s =>
    match body s with
    | (s', r) =>
        match cleanup s' with
        | (s'', Ok _) => (s'', r)
        | (s'', Raise msg) => (s'', Raise msg)
        end
    end.

Definition get {S} : M S S := fun s => (s, Ok s).

Definition modify {S} (f : S -> S) : M S unit := fun s => (f s, Ok tt).

(** A [for] loop threading an accumulator. *)
Fixpoint for_each {S A B} (xs : list A) (acc : B) (body : B -> A -> M S B)
  : M S B :=
  match xs with
  | [] => ret acc
  | x :: xs' => bind (body acc x) (fun acc' => for_each xs' acc' body)
  end.

Declare Scope exn_scope.
Delimit Scope exn_scope with exn.
Notation "x <- m ;; k" := (bind m (fun x => k))
  (at level 61, m at next level, right associativity) : exn_scope.
Notation "m ;;; k" := (bind m (fun _ => k))
  (at level 61, right associativity) : exn_scope.

End Exn.

(** ** The store ([database.py] and [BookIndex._store_book_data]) *)

Module Store.
Import PyStr Parser Exn.

(** Table [books]; [id] is the primary key. *)
Record BookRecord := mkBookRecord {
  br_id : Z;
  br_title : text;
  br_author : text;
  br_genre : option text;
  br_language : text;
  br_format : text;
  br_size : Z;
  br_archive_file : text;
  br_date_added : option Z
}.

(** Table [book_search]; the primary key is [rowid], [id] is an ordinary
    indexed column.  An object that was not given a [rowid] has [None]. *)
Record BookSearchRecord := mkBookSearchRecord {
  bs_rowid : option Z;
  bs_id : Z;
  bs_author : text;
  bs_title : text;
  bs_language : text
}.

(** Table [settings]; [name] is the primary key. *)
Record SettingsRecord := mkSettingsRecord {
  st_name : text;
  st_value : option text
}.

(** A session on the database: the three tables, the clock that feeds the
    [date_added] default, and the number of write statements issued. *)
Record Session := mkSession {
  books : list BookRecord;
  book_search : list BookSearchRecord;
  settings : list SettingsRecord;
  utcnow : Z;
  writes : nat
}.

Definition text_eqb (a b : text) : bool :=
  if list_eq_dec ascii_dec a b then true else false.

(** *** [Session.merge] on [books]: reconcile on the primary key *)

Definition has_book (id : Z) (rows : list BookRecord) : bool :=
  existsb (fun x => br_id x =? id) rows.

(** The primary keys in use. *)
Definition ids (rows : list BookRecord) : list Z := map br_id rows.

(** Copy the state of the given object [r] onto the persistent row [x];
    [date_added] is not set on [r], so the row keeps its own. *)
Definition update_book (r x : BookRecord) : BookRecord :=
  {| br_id := br_id x;
     br_title := br_title r;
     br_author := br_author r;
     br_genre := br_genre r;
     br_language := br_language r;
     br_format := br_format r;
     br_size := br_size r;
     br_archive_file := br_archive_file r;
     br_date_added := match br_date_added r with
                      | Some d => Some d
                      | None => br_date_added x
                      end |}.

(** INSERT: the column default fills [date_added]; the row takes its
    place in primary-key order. *)
Definition with_default_date (now : Z) (r : BookRecord) : BookRecord :=
  {| br_id := br_id r;
     br_title := br_title r;
     br_author := br_author r;
     br_genre := br_genre r;
     br_language := br_language r;
     br_format := br_format r;
     br_size := br_size r;
     br_archive_file := br_archive_file r;
     br_date_added := match br_date_added r with
                      | Some d => Some d
                      | None => Some now
                      end |}.

Fixpoint insert_book (r : BookRecord) (rows : list BookRecord)
  : list BookRecord :=
  match rows with
  | [] => [r]
  | x :: rest =>
      if br_id r <? br_id x then r :: rows else x :: insert_book r rest
  end.

Definition merge_book (now : Z) (r : BookRecord) (rows : list BookRecord)
  : list BookRecord :=
  if has_book (br_id r) rows
  then map (fun x => if br_id x =? br_id r then update_book r x else x) rows
  else insert_book (with_default_date now r) rows.

(** *** [Session.merge] on [book_search]: the primary key is [rowid] *)

Definition rowid_of (x : BookSearchRecord) : Z :=
  match bs_rowid x with Some k => k | None => 0 end.

(** The rowid SQLite assigns: one more than the largest in use. *)
Definition next_rowid (rows : list BookSearchRecord) : Z :=
  1 + fold_right (fun x m => Z.max (rowid_of x) m) 0 rows.

Definition has_rowid (k : Z) (rows : list BookSearchRecord) : bool :=
  existsb (fun x => rowid_of x =? k) rows.

Definition with_rowid (k : Z) (r : BookSearchRecord) : BookSearchRecord :=
  {| bs_rowid := Some k;
     bs_id := bs_id r;
     bs_author := bs_author r;
     bs_title := bs_title r;
     bs_language := bs_language r |}.

(** An object without primary key has no row to be reconciled with: it is
    inserted.  With a primary key the row of that key is overwritten. *)
Definition merge_search (r : BookSearchRecord) (rows : list BookSearchRecord)
  : list BookSearchRecord :=
  match bs_rowid r with
  | None => rows ++ [with_rowid (next_rowid rows) r]
  | Some k =>
      if has_rowid k rows
      then map (fun x => if rowid_of x =? k then r else x) rows
      else rows ++ [r]
  end.

Definition session_merge_book (r : BookRecord) : M Session unit :=
  modify (fun s =>
    {| books := merge_book (utcnow s) r (books s);
       book_search := book_search s;
       settings := settings s;
       utcnow := utcnow s;
       writes := S (writes s) |}).

Definition session_merge_search (r : BookSearchRecord) : M Session unit :=
  modify (fun s =>
    {| books := books s;
       book_search := merge_search r (book_search s);
       settings := settings s;
       utcnow := utcnow s;
       writes := S (writes s) |}).

(** [session.commit()]: the tables of the model already hold the merged
    rows. *)
Definition commit : M Session unit := ret tt.

(** [int(book_data['bookid'])] *)
Definition int_bookid (bd : BookData) : M Session Z :=
  match int (bd_bookid bd) with
  | Some i => ret i
  | None => raise (txt "invalid literal for int() with base 10")
  end.

Definition _store_book_data (bd : BookData) : M Session unit :=
  try_except
    (id1 <- int_bookid bd ;;
     session_merge_book
       {| br_id := id1;
          br_title := bd_title bd;
          br_author := bd_author bd;
          br_genre := Some (bd_genre bd);
          br_language := bd_language bd;
          br_format := bd_format bd;
          br_size := bd_size bd;
          br_archive_file := bd_archive_file bd;
          br_date_added := None |} ;;;
     id2 <- int_bookid bd ;;
     session_merge_search
       {| bs_rowid := None;
          bs_id := id2;
          bs_author := upper (bd_author bd);
          bs_title := upper (bd_title bd);
          bs_language := bd_language bd |})%exn
    (fun msg => raise msg).

(** *** [BookIndex._process_index_file] *)

(** The body of the [try] for one line; [n] is [books_processed]. *)
Definition line_body (archive_name : text) (n : nat) (line : text)
  : M Session nat :=
  if is_empty (strip line) then ret n
  else
    match _parse_book_metadata line archive_name with
    | None => ret n
    | Some bd =>
        (_store_book_data bd ;;;
         (if (S n mod 1000 =? 0)%nat then commit else ret tt) ;;;
         ret (S n))%exn
    end.

(** One iteration: [except Exception] logs and continues. *)
Definition process_line (archive_name : text) (n : nat) (line : text)
  : M Session nat :=
  try_except (line_body archive_name n line) (fun _ => ret n).

Definition process_lines (archive_name : text) (lines : list text)
  : M Session nat :=
  (n <- for_each lines 0%nat (process_line archive_name) ;;
   commit ;;;
   ret n)%exn.

End Store.

(** ** Index builder ([BookIndex.__init__], [_should_rebuild_index],
    [create_index]) *)

Module Builder.
Import PyStr Parser Exn Store.

(** An entry of the scratch directory: a text file with its lines, or
    something [open] cannot read (a directory). *)
Inductive Entry : Type :=
| File (lines : list text)
| Dir.

(** The catalog bundle on disk: its MD5 digest, and its members when it is
    a readable zip archive. *)
Record IndexFile := mkIndexFile {
  md5_hexdigest : text;
  zip_members : option (list (text * Entry))
}.

(** [config.index_file]; [None] when the path does not exist. *)
Record Config := mkConfig {
  index_file : option IndexFile
}.

(** The database session and the scratch directory [config.tmp_path]
    ([None] when it does not exist). *)
Record World := mkWorld {
  session : Session;
  tmp_path : option (list (text * Entry))
}.

Definition in_session {A} (m : M Session A) : M World A :=
  fun w =>
    match m (session w) with
    | (s', r) => ({| session := s'; tmp_path := tmp_path w |}, r)
    end.

Definition CHECKSUM_KEY : text := txt "index_file_checksum".

(** [_get_stored_checksum]: the value of the first row of that name. *)
Definition _get_stored_checksum (s : Session) : option text :=
  match find (fun r => text_eqb (st_name r) CHECKSUM_KEY) (settings s) with
  | Some setting => st_value setting
  | None => None
  end.

Definition _calculate_index_checksum (cfg : Config) : text :=
  match index_file cfg with
  | None => []
  | Some f => md5_hexdigest f
  end.

Definition option_text_eqb (a b : option text) : bool :=
  match a, b with
  | Some x, Some y => text_eqb x y
  | None, None => true
  | _, _ => false
  end.

Definition _should_rebuild_index (cfg : Config) (s : Session) : bool :=
  match index_file cfg with
  | None => false
  | Some _ =>
      if (List.length (books s) =? 0)%nat then true
      else negb (option_text_eqb (Some (_calculate_index_checksum cfg))
                                 (_get_stored_checksum s))
  end.

Fixpoint set_value (name value : text) (rows : list SettingsRecord)
  : list SettingsRecord :=
  match rows with
  | [] => []
  | r :: rest =>
      if text_eqb (st_name r) name
      then {| st_name := st_name r; st_value := Some value |} :: rest
      else r :: set_value name value rest
  end.

Definition _store_checksum (checksum : text) : M Session unit :=
  modify (fun s =>
    {| books := books s;
       book_search := book_search s;
       settings :=
         match find (fun r => text_eqb (st_name r) CHECKSUM_KEY) (settings s) with
         | Some _ => set_value CHECKSUM_KEY checksum (settings s)
         | None => settings s ++ [{| st_name := CHECKSUM_KEY;
                                     st_value := Some checksum |}]
         end;
       utcnow := utcnow s;
       writes := S (writes s) |}).

(** [session.query(BookRecord).delete()] then
    [session.query(BookSearchRecord).delete()] *)
Definition clear_existing_data : M Session unit :=
  modify (fun s =>
    {| books := [];
       book_search := [];
       settings := settings s;
       utcnow := utcnow s;
       writes := S (S (writes s)) |}).

Definition has_name (name : text) (entries : list (text * Entry)) : bool :=
  existsb (fun e => text_eqb (fst e) name) entries.

(** [archive.extractall(tmp_path)]: members replace entries of their name. *)
Definition extractall (members old : list (text * Entry))
  : list (text * Entry) :=
  members ++ filter (fun e => negb (has_name (fst e) members)) old.

Definition _extract_index_archive (f : IndexFile) : M World unit :=
  (modify (fun w =>
     {| session := session w;
        tmp_path := match tmp_path w with
                    | Some old => Some old
                    | None => Some []
                    end |}) ;;;
   match zip_members f with
   | None => raise (txt "File is not a zip file")
   | Some members =>
       modify (fun w =>
         {| session := session w;
            tmp_path := match tmp_path w with
                        | Some old => Some (extractall members old)
                        | None => Some members
                        end |})
   end)%exn.

Definition ends_with (suffix s : text) : bool :=
  (List.length suffix <=? List.length s)%nat
  && text_eqb (skipn (List.length s - List.length suffix) s) suffix.

(** [tmp_path.glob("*.inp")] *)
Definition _get_index_files (w : World) : list (text * Entry) :=
  match tmp_path w with
  | None => []
  | Some entries => filter (fun e => ends_with (txt ".inp") (fst e)) entries
  end.

(** [index_file.stem] of a name matched by the glob. *)
Definition stem (name : text) : text :=
  if (List.length name <=? 4)%nat then name
  else firstn (List.length name - 4) name.

Definition _process_index_file (e : text * Entry) : M World nat :=
  let archive_name := stem (fst e) ++ txt ".zip" in
  match snd e with
  | Dir => raise (txt "Is a directory")
  | File lines => in_session (process_lines archive_name lines)
  end.

(** [shutil.rmtree(tmp_path)] when the directory exists. *)
Definition cleanup_tmp : M World unit :=
  modify (fun w => {| session := session w; tmp_path := None |}).

Definition create_index (cfg : Config) : M World unit :=
  match index_file cfg with
  | None => raise (txt "Index file not found")
  | Some f =>
      (in_session (clear_existing_data ;;; commit) ;;;
       _extract_index_archive f ;;;
       try_finally
         (w <- get ;;
          total_books <- for_each (_get_index_files w) 0%nat
             (fun total e =>
                books_processed <- _process_index_file e ;;
                ret (total + books_processed)%nat) ;;
          in_session
            (_store_checksum (_calculate_index_checksum cfg) ;;; commit))
         cleanup_tmp)%exn
  end.

(** The end of [BookIndex.__init__]. *)
Definition init_index (cfg : Config) : M World unit :=
  fun w =>
    if _should_rebuild_index cfg (session w)
    then create_index cfg w
    else (w, Ok tt).

End Builder.

(** ** Query model ([models.py]) and query engine ([BookIndex.search]) *)

Module Query.
Import PyStr Exn Store.

Record SearchQuery := mkSearchQuery {
  q_title : option text;
  q_author : option text;
  q_genre : option text;
  q_format : option text;
  q_language : option text;
  q_limit : Z;
  q_offset : Z
}.

(** The validator [clean_search_terms]: [" ".join(v.split())]. *)
Definition clean_search_terms (v : option text) : option text :=
  match v with
  | None => None
  | Some [] => Some []
  | Some s => Some (join [" "] (split_ws [] s))
  end.

(** [SearchQuery(...)]: [str_strip_whitespace] strips every string field,
    the validator cleans title, author and genre; [limit] and [offset] are
    plain [int] fields. *)
Definition SearchQuery_init (title author genre format language : option text)
  (limit offset : Z) : result SearchQuery :=
  Ok {| q_title := clean_search_terms (option_map strip title);
        q_author := clean_search_terms (option_map strip author);
        q_genre := clean_search_terms (option_map strip genre);
        q_format := option_map strip format;
        q_language := option_map strip language;
        q_limit := limit;
        q_offset := offset |}.

(** Python truthiness of an optional string. *)
Definition truthy (v : option text) : bool :=
  match v with
  | Some (_ :: _) => true
  | _ => false
  end.

(** The parameters of [/api/search] in [web/main.py]:
    [limit = Query(20, ge=1, le=1000)], [offset = Query(0, ge=0)], and at
    least one of title, author, genre. *)
Definition api_search_query (title author genre format language : option text)
  (limit offset : Z) : result SearchQuery :=
  if negb ((1 <=? limit) && (limit <=? 1000) && (0 <=? offset))
  then Raise (txt "422 Unprocessable Entity")
  else if negb (truthy title || truthy author || truthy genre)
  then Raise (txt "At least one search term (title, author, or genre) must be provided")
  else SearchQuery_init title author genre format language limit offset.

(** The options of [pybusta search] in [cli/main.py]:
    [--limit] is [click.IntRange(1, 1000)], [--offset] is
    [click.IntRange(0)]. *)
Definition cli_search_query (title author genre format language : option text)
  (limit offset : Z) : result SearchQuery :=
  if negb ((1 <=? limit) && (limit <=? 1000))
  then Raise (txt "Invalid value for '--limit'")
  else if negb (0 <=? offset)
  then Raise (txt "Invalid value for '--offset'")
  else if negb (truthy title || truthy author || truthy genre)
  then Raise (txt "At least one search term (title, author, or genre) must be provided")
  else SearchQuery_init title author genre format language limit offset.

(** *** SQL [LIKE]

    ['%'] matches any run of characters, ['_'] exactly one character, any
    other character itself. *)
Fixpoint like (pat s : text) : bool :=
  match pat with
  | [] => match s with [] => true | _ => false end
  | p :: pat' =>
      if Ascii.eqb p "%" then
        (fix any_suffix (s : text) : bool :=
           like pat' s
           || match s with
              | [] => false
              | _ :: s' => any_suffix s'
              end) s
      else
        match s with
        | [] => false
        | c :: s' =>
            (Ascii.eqb p "_" || Ascii.eqb p c) && like pat' s'
        end
  end.

(** SQLite's [lower()]: it folds the ASCII letters only. *)
Definition lower_char (c : ascii) : ascii :=
  if in_range 65 90 c then ascii_of_nat (nat_of_ascii c + 32) else c.

Definition lower (s : text) : text := map lower_char s.

(** [column.ilike(pat)], rendered for SQLite as
    [lower(column) LIKE lower(pat)]. *)
Definition ilike (column pat : text) : bool :=
  like (lower pat) (lower column).

(** [f"%{term}%"] *)
Definition contains_pattern (term : text) : text :=
  "%" :: term ++ ["%"].

(** *** Substring matching, the reading the conditions are compared with *)

Fixpoint starts_with (prefix s : text) : bool :=
  match prefix, s with
  | [], _ => true
  | _ :: _, [] => false
  | a :: prefix', b :: s' => Ascii.eqb a b && starts_with prefix' s'
  end.

(** [needle in s] *)
Fixpoint contains (needle s : text) : bool :=
  starts_with needle s
  || match s with
     | [] => false
     | _ :: s' => contains needle s'
     end.

(** Case-insensitive contains, with the case folding of the engine. *)
Definition icontains (needle s : text) : bool :=
  contains (lower needle) (lower s).



(** The conditions [search] builds. *)
Inductive Condition : Type :=
| IdIn (book_ids : list Z)
| TitleILike (pat : text)
| AuthorILike (pat : text)
| GenreILike (pat : text)
| LanguageEq (v : text)
| FormatEq (v : text).

Definition eval_condition (c : Condition) (r : BookRecord) : bool :=
  match c with
  | IdIn book_ids => existsb (fun i => i =? br_id r) book_ids
  | TitleILike pat => ilike (br_title r) pat
  | AuthorILike pat => ilike (br_author r) pat
  | GenreILike pat =>
      match br_genre r with
      | Some g => ilike g pat
      | None => false
      end
  | LanguageEq v => text_eqb (br_language r) v
  | FormatEq v => text_eqb (br_format r) v
  end.

Section WithFTS.

(** The full-text index: the ids returned by
    [SELECT id FROM book_search_fts WHERE book_search_fts MATCH :query],
    or the exception the statement raises. *)
Variable fts_match : text -> result (list Z).

(** The double quote. *)
Definition DQUOTE : ascii := ascii_of_nat 34.

(** The f-string that puts the term between double quotes after
    [title:]. *)
Definition title_fts_query (title : text) : text :=
  txt "title:" ++ [DQUOTE] ++ title ++ [DQUOTE].

Definition author_fts_query (author : text) : text :=
  txt "author:" ++ [DQUOTE] ++ author ++ [DQUOTE].

Definition _build_title_condition (title : text) : Condition :=
  if (2 <? List.length title)%nat then
    match fts_match (title_fts_query title) with
    | Ok book_ids =>
        match book_ids with
        | _ :: _ => IdIn book_ids
        | [] => TitleILike (contains_pattern title)
        end
    | Raise _ => TitleILike (contains_pattern title)
    end
  else TitleILike (contains_pattern title).

Definition _build_author_condition (author : text) : Condition :=
  if (2 <? List.length author)%nat then
    match fts_match (author_fts_query author) with
    | Ok book_ids =>
        match book_ids with
        | _ :: _ => IdIn book_ids
        | [] => AuthorILike (contains_pattern author)
        end
    | Raise _ => AuthorILike (contains_pattern author)
    end
  else AuthorILike (contains_pattern author).

Definition when_set {A} (v : option text) (f : text -> A) : list A :=
  match v with
  | Some (c :: s) => [f (c :: s)]
  | _ => []
  end.

Definition conditions (query : SearchQuery) : list Condition :=
  when_set (q_title query) _build_title_condition
  ++ when_set (q_author query) _build_author_condition
  ++ when_set (q_language query) LanguageEq
  ++ when_set (q_genre query) (fun g => GenreILike (contains_pattern g))
  ++ when_set (q_format query) FormatEq.

(** [db_query.filter(and_(conditions))]: every condition holds. *)
Definition matching (query : SearchQuery) (rows : list BookRecord)
  : list BookRecord :=
  filter (fun r => forallb (fun c => eval_condition c r) (conditions query))
         rows.

(** [OFFSET n]: a negative [n] skips nothing. *)
Definition sql_offset {A} (n : Z) (rows : list A) : list A :=
  skipn (Z.to_nat n) rows.

(** [LIMIT n]: a negative [n] is no limit. *)
Definition sql_limit {A} (n : Z) (rows : list A) : list A :=
  if n <? 0 then rows else firstn (Z.to_nat n) rows.

(** The [Book] model, with the fields [search] fills. *)
Record Book := mkBook {
  b_id : option Z;
  b_title : text;
  b_author : text;
  b_extension : text;
  b_filesize : Z;
  b_language : option text;
  b_added : option Z
}.

(** The validator [clean_text_fields] of [Book]. *)
Definition clean_text_fields (v : text) : text :=
  match v with
  | [] => []
  | _ => join [" "] (split_ws [] v)
  end.

Definition to_book (r : BookRecord) : Book :=
  {| b_id := Some (br_id r);
     b_title := clean_text_fields (br_title r);
     b_author := clean_text_fields (br_author r);
     b_extension := br_format r;
     b_filesize := br_size r;
     b_language := Some (br_language r);
     b_added := br_date_added r |}.

(** [SearchResult] without the wall-clock [execution_time]. *)
Record SearchResult := mkSearchResult {
  sr_books : list Book;
  total_count : nat;
  sr_query : SearchQuery
}.

Definition search (s : Session) (query : SearchQuery) : SearchResult :=
  let db_query := matching query (books s) in
  let total := List.length db_query in
  let books_data := sql_limit (q_limit query)
                      (sql_offset (q_offset query) db_query) in
  {| sr_books := map to_book books_data;
     total_count := total;
     sr_query := query |}.

End WithFTS.

End Query.

(** ** Extraction engine ([BookIndex.extract_book]) *)

Module ExtractionEngine.
Import PyStr Exn Store.

Record ExtractionResult := mkExtractionResult {
  book_id : Z;
  original_filename : text;
  extracted_filename : text;
  file_path : text;
  file_size : Z;
  success : bool;
  error_message : option text
}.

(** [config.data_dir] and [config.extract_path]. *)
Record Paths := mkPaths {
  data_dir : text;
  extract_path : text
}.

(** The file system as [extract_book] meets it: the outcome of every call
    it makes, each of which may raise. *)
Record FileSystem := mkFileSystem {
  fs_mkdir : text -> result unit;
  fs_exists : text -> bool;
  fs_zip_open : text -> result unit;
  fs_zip_extract : text -> text -> text -> result unit;
  fs_rename : text -> text -> result unit;
  fs_stat_size : text -> result nat
}.

(** What a call changed on disk. *)
Inductive FsEffect : Type :=
| MadeDir (path : text)
| ExtractedMember (archive member dir : text)
| Renamed (src dst : text).

(** The frame of one call: the effects so far and the local variables the
    [except] clause looks up with [locals()]. *)
Record Frame := mkFrame {
  effects : list FsEffect;
  l_original_filename : option text;
  l_extracted_filename : option text;
  l_extracted_path : option text
}.

Definition empty_frame : Frame :=
  {| effects := [];
     l_original_filename := None;
     l_extracted_filename := None;
     l_extracted_path := None |}.

(** Run a file-system call; its effect is recorded when it succeeds. *)
Definition call {A} (outcome : result A) (e : list FsEffect) : M Frame A :=
  fun fr =>
    match outcome with
    | Ok a => ({| effects := effects fr ++ e;
                  l_original_filename := l_original_filename fr;
                  l_extracted_filename := l_extracted_filename fr;
                  l_extracted_path := l_extracted_path fr |}, Ok a)
    | Raise msg => (fr, Raise msg)
    end.

Definition assign_locals (orig extracted path : text) : M Frame unit :=
  modify (fun fr =>
    {| effects := effects fr;
       l_original_filename := Some orig;
       l_extracted_filename := Some extracted;
       l_extracted_path := Some path |}).

(** [path / name] *)
Definition joinpath (path name : text) : text := path ++ ["/"] ++ name.

(** [str(n)] for an integer. *)
Definition str_of_int (n : Z) : text :=
  txt (NilZero.string_of_int (Z.to_int n)).

(** ["".join(c for c in s if c.isalnum() or c in (' ', '-', '_')).strip()] *)
Definition safe_name (s : text) : text :=
  strip (filter (fun c => isalnum c || Ascii.eqb c " " || Ascii.eqb c "-"
                          || Ascii.eqb c "_") s).

Definition or_default (v : option text) (d : text) : text :=
  match v with Some x => x | None => d end.

(** [Path()] *)
Definition empty_path : text := ["."].

(** [data_dir / "fb2.Flibusta.Net" / book_record.archive_file] *)
Definition archive_path_of (cfg : Paths) (book_record : BookRecord) : text :=
  joinpath (joinpath (data_dir cfg) (txt "fb2.Flibusta.Net"))
           (br_archive_file book_record).

(** The member name, id and format joined by a dot. *)
Definition original_filename_of (id : Z) (book_record : BookRecord) : text :=
  str_of_int id ++ ["."] ++ br_format book_record.

(** The output name: safe author, [" - "], safe title, a dot and the
    format. *)
Definition extracted_filename_of (book_record : BookRecord) : text :=
  safe_name (br_author book_record) ++ txt " - "
  ++ safe_name (br_title book_record) ++ ["."] ++ br_format book_record.

Definition extracted_path_of (cfg : Paths) (book_record : BookRecord) : text :=
  joinpath (extract_path cfg) (extracted_filename_of book_record).

Definition not_found_message (id : Z) : text :=
  txt "Book with ID " ++ str_of_int id ++ txt " not found".

Definition archive_missing_message (archive_path : text) : text :=
  txt "Archive file not found: " ++ archive_path.

(** [extract_book]: the record is looked up in the [books] table, then
    every step that touches the disk runs inside the [try]. *)


Definition extract_book (cfg : Paths) (fs : FileSystem) (s : Session)
  (id : Z) : M Frame ExtractionResult :=
  match find (fun r => br_id r =? id) (books s) with
  | None =>
      ret {| book_id := id;
             original_filename := [];
             extracted_filename := [];
             file_path := empty_path;
             file_size := 0;
             success := false;
             error_message := Some (not_found_message id) |}
  | Some book_record =>
      try_except
        (call (fs_mkdir fs (extract_path cfg)) [MadeDir (extract_path cfg)] ;;;
         let archive_path := archive_path_of cfg book_record in
         let orig := original_filename_of id book_record in
         let extracted := extracted_filename_of book_record in
         let extracted_path := extracted_path_of cfg book_record in
         assign_locals orig extracted extracted_path ;;;
         if negb (fs_exists fs archive_path) then
           ret {| book_id := id;
                  original_filename := orig;
                  extracted_filename := extracted;
                  file_path := extracted_path;
                  file_size := 0;
                  success := false;
                  error_message :=
                    Some (archive_missing_message archive_path) |}
         else
           call (fs_zip_open fs archive_path) [] ;;;
           let temp_path := joinpath (extract_path cfg) orig in
           call (fs_zip_extract fs archive_path orig (extract_path cfg))
                [ExtractedMember archive_path orig (extract_path cfg)] ;;;
           call (fs_rename fs temp_path extracted_path)
                [Renamed temp_path extracted_path] ;;;
           size <- call (fs_stat_size fs extracted_path) [] ;;
           ret {| book_id := id;
                  original_filename := orig;
                  extracted_filename := extracted;
                  file_path := extracted_path;
                  file_size := Z.of_nat size;
                  success := true;
                  error_message := None |})%exn
        (fun msg =>
           (fr <- get ;;
            ret {| book_id := id;
                   original_filename := or_default (l_original_filename fr) [];
                   extracted_filename := or_default (l_extracted_filename fr) [];
                   file_path := or_default (l_extracted_path fr) empty_path;
                   file_size := 0;
                   success := false;
                   error_message := Some msg |})%exn)
  end.

End ExtractionEngine.

(** ** More of the query model ([SearchQuery.has_search_terms]) *)

Module Models.
Import PyStr Exn Store Query.


(** A word, as [s.split()] yields them: not empty, no whitespace. *)
Definition is_word (w : text) : Prop :=
  w <> [] /\ Forall (fun c => isspace c = false) w.

(** [SearchQuery(limit=limit, offset=offset)]: every filter keeps its
    default [None]. *)
Definition query_all (limit offset : Z) : SearchQuery :=
  {| q_title := None; q_author := None; q_genre := None;
     q_format := None; q_language := None;
     q_limit := limit; q_offset := offset |}.

End Models.

(** ** The disk operations of a complete extraction *)

Module ExtractionPlan.
Import Store ExtractionEngine.

(** What [extract_book] does on disk when every step succeeds: create the
    output directory, extract the member into it, rename the member. *)
Definition planned_effects (cfg : Paths) (id : Z) (book_record : BookRecord)
  : list FsEffect :=
  [ MadeDir (extract_path cfg);
    ExtractedMember (archive_path_of cfg book_record)
                    (original_filename_of id book_record) (extract_path cfg);
    Renamed (joinpath (extract_path cfg) (original_filename_of id book_record))
            (extracted_path_of cfg book_record) ].

End ExtractionPlan.

(** ** Statistics ([BookIndex.get_stats]) *)

Module Stats.
Import PyStr Exn Store Builder.

Record IndexStats := mkIndexStats {
  total_books : nat;
  total_authors : nat;
  total_genres : nat;
  languages : list (text * nat);
  formats : list (text * nat);
  index_size : nat;
  index_file_checksum : option text
}.

Definition text_dec : forall a b : text, {a = b} + {a <> b} :=
  list_eq_dec ascii_dec.

(** [count(distinct column)] *)
Definition count_distinct (values : list text) : nat :=
  List.length (nodup text_dec values).

(** [select column, count(id) ... group by column], as the dict built
    from its rows. *)
Definition group_count (values : list text) : list (text * nat) :=
  map (fun k => (k, count_occ text_dec values k)) (nodup text_dec values).

(** The genres that are not NULL; [count] skips NULL. *)
Fixpoint non_null (values : list (option text)) : list text :=
  match values with
  | [] => []
  | Some v :: rest => v :: non_null rest
  | None :: rest => non_null rest
  end.

(** [database_size] is what [db_manager.get_database_size()] returns. *)
Definition get_stats (database_size : nat) (s : Session) : IndexStats :=
  {| total_books := List.length (books s);
     total_authors := count_distinct (map br_author (books s));
     total_genres := count_distinct (non_null (map br_genre (books s)));
     languages := group_count (map br_language (books s));
     formats := group_count (map br_format (books s));
     index_size := database_size;
     index_file_checksum := _get_stored_checksum s |}.

End Stats.

(** ** The web application ([web/main.py]) *)

Module Web.
Import PyStr Exn Store Query ExtractionEngine Models.

(** The exceptions the handlers tell apart; all of them are instances of
    [Exception]. *)
Inductive PyExc : Type :=
| HTTPException (status_code : Z) (detail : option text)
| ValueError (msg : text)
| OtherError (msg : text).

Inductive outcome (A : Type) : Type :=
| Returned (a : A)
| Raised (e : PyExc).
Arguments Returned {A} a.
Arguments Raised {A} e.

(** [try: body  except Exception as e: handler] *)
Definition except_exception {A} (body : outcome A) (handler : PyExc -> outcome A)
  : outcome A :=
  match body with
  | Returned a => Returned a
  | Raised e => handler e
  end.

(** [index.extract_book(book_id)] as a handler calls it. *)
Definition call_extract_book (cfg : Paths) (fs : FileSystem) (s : Session)
  (id : Z) (fr : Frame) : Frame * outcome ExtractionResult :=
  match extract_book cfg fs s id fr with
  | (fr', Ok res) => (fr', Returned res)
  | (fr', Raise msg) => (fr', Raised (OtherError msg))
  end.

(** [POST /api/extract/{book_id}] *)
Definition api_extract_book (cfg : Paths) (fs : FileSystem) (s : Session)
  (id : Z) (fr : Frame) : Frame * outcome ExtractionResult :=
  match call_extract_book cfg fs s id fr with
  | (fr', r) =>
      (fr',
       except_exception
         match r with
         | Returned result =>
             if negb (success result)
             then Raised (HTTPException 404 (error_message result))
             else Returned result
         | Raised e => Raised e
         end
         (fun _ => Raised (HTTPException 500 (Some (txt "Extraction failed")))))
  end.

(** The [FileResponse] of the download routes. *)
Record FileResponse := mkFileResponse {
  fr_path : text;
  fr_filename : text;
  fr_media_type : text
}.

Definition octet_stream (result : ExtractionResult) : FileResponse :=
  {| fr_path := file_path result;
     fr_filename := extracted_filename result;
     fr_media_type := txt "application/octet-stream" |}.

(** [GET /api/download/{book_id}] *)
Definition api_download_book (cfg : Paths) (fs : FileSystem) (s : Session)
  (id : Z) (fr : Frame) : Frame * outcome FileResponse :=
  match call_extract_book cfg fs s id fr with
  | (fr', r) =>
      (fr',
       except_exception
         match r with
         | Returned result =>
             if negb (success result)
             then Raised (HTTPException 404 (error_message result))
             else if negb (fs_exists fs (file_path result))
             then Raised (HTTPException 404 (Some (txt "File not found")))
             else Returned (octet_stream result)
         | Raised e => Raised e
         end
         (fun _ => Raised (HTTPException 500 (Some (txt "Download failed")))))
  end.

(** [GET /extract/{book_id}] *)
Definition web_extract_book (cfg : Paths) (fs : FileSystem) (s : Session)
  (id : Z) (fr : Frame) : Frame * outcome FileResponse :=
  match call_extract_book cfg fs s id fr with
  | (fr', r) =>
      (fr',
       except_exception
         match r with
         | Returned result =>
             if negb (success result)
             then Raised (HTTPException 404 (error_message result))
             else Returned (octet_stream result)
         | Raised e => Raised e
         end
         (fun _ => Raised (HTTPException 500 (Some (txt "Extraction failed")))))
  end.

(** [GET /api/books/{book_id}] *)
Definition api_get_book (fts : text -> result (list Z)) (cfg : Paths)
  (fs : FileSystem) (s : Session) (id : Z) (fr : Frame)
  : Frame * outcome Book :=
  let result := search fts s (query_all 1 0) in
  match call_extract_book cfg fs s id fr with
  | (fr', r) =>
      (fr',
       except_exception
         match r with
         | Returned extraction_result =>
             if negb (success extraction_result)
             then Raised (HTTPException 404 (Some (txt "Book not found")))
             else Raised (HTTPException 501 (Some (txt "Not implemented yet")))
         | Raised e => Raised e
         end
         (fun _ => Raised (HTTPException 500 (Some (txt "Failed to get book")))))
  end.

(** The context [web_search] hands to [search_results.html]. *)
Record SearchPage := mkSearchPage {
  sp_result : SearchResult;
  current_page : Z;
  total_pages : Z;
  has_prev : bool;
  has_next : bool;
  prev_page : option Z;
  next_page : option Z
}.

Inductive WebPage : Type :=
| SearchResults (ctx : SearchPage)
| ErrorPage (error : text).

(** The page size of [web_search]. *)
Definition PAGE_SIZE : Z := 20.

(** [GET /search]; [page] is [Query(1, ge=1)]. *)
Definition web_search (fts : text -> result (list Z)) (s : Session)
  (title author language genre format : option text) (page : Z)
  : outcome WebPage :=
  if page <? 1 then Raised (HTTPException 422 None)
  else
    let limit := PAGE_SIZE in
    let offset := (page - 1) * limit in
    let searched :=
      if truthy title || truthy author || truthy genre then
        match SearchQuery_init title author genre format language limit offset
        with
        | Ok query => Returned (search fts s query)
        | Raise msg => Raised (OtherError msg)
        end
      else
        Returned {| sr_books := []; total_count := 0;
                    sr_query := query_all 50 0 |} in
    match searched with
    | Returned result =>
        let pages := (Z.of_nat (total_count result) + limit - 1) / limit in
        Returned (SearchResults
          {| sp_result := result;
             current_page := page;
             total_pages := pages;
             has_prev := 1 <? page;
             has_next := page <? pages;
             prev_page := if 1 <? page then Some (page - 1) else None;
             next_page := if page <? pages then Some (page + 1) else None |})
    | Raised _ =>
        Returned (ErrorPage (txt "Search failed. Please try again."))
    end.

(** The exception of the [except] clause of the extraction routes. *)
Definition EXTRACTION_FAILED : PyExc :=
  HTTPException 500 (Some (txt "Extraction failed")).

(** The books [web_search] shows on a page, and the number of pages it
    reports. *)
Definition web_search_books (fts : text -> result (list Z)) (s : Session)
  (title author language genre format : option text) (page : Z)
  : list Book :=
  match web_search fts s title author language genre format page with
  | Returned (SearchResults ctx) => sr_books (sp_result ctx)
  | _ => []
  end.


End Web.

(** ** The command line ([cli/main.py]) *)

Module Cli.
Import PyStr Exn Store Query.

(** The closing line of [_output_table]: the number of further results it
    announces, when it prints that line.  Without books the function
    returns after its first message. *)
Definition _output_table_remaining (result : SearchResult) : option Z :=
  match sr_books result with
  | [] => None
  | _ =>
      let shown := Z.of_nat (List.length (sr_books result)) in
      let total := Z.of_nat (total_count result) in
      if shown <? total
      then Some (total - shown - q_offset (sr_query result))
      else None
  end.

End Cli.

(** ** The OPDS catalog ([opds/models.py], [opds/feeds.py],
    [opds/routes.py])

    Feeds are modelled up to the [OPDSFeed] object that [to_xml]
    serialises; the [updated] time stamps and the subtitles, which quote
    the clock, are left out. *)

Module Opds.
Import PyStr Exn Store Query ExtractionEngine Models Web.

Record OPDSLink := mkOPDSLink {
  rel : text;
  href : text;
  link_type : text;
  link_title : option text
}.

Record OPDSEntry := mkOPDSEntry {
  entry_id : text;
  entry_title : text;
  summary : option text;
  authors : list text;
  entry_language : option text;
  issued : option text;
  categories : list text;
  entry_links : list OPDSLink
}.

Record OPDSFeed := mkOPDSFeed {
  feed_id : text;
  feed_title : text;
  feed_links : list OPDSLink;
  entries : list OPDSEntry;
  total_results : option Z;
  items_per_page : option Z;
  start_index : option Z
}.

(** [str(book.id)] for an optional id. *)
Definition str_of_id (id : option Z) : text :=
  match id with
  | Some i => str_of_int i
  | None => txt "None"
  end.

Definition ACQUISITION : text :=
  txt "application/atom+xml;profile=opds-catalog;kind=acquisition".

Definition NAVIGATION : text :=
  txt "application/atom+xml;profile=opds-catalog;kind=navigation".

Definition ENTRY_TYPE : text :=
  txt "application/atom+xml;type=entry;profile=opds-catalog".

(** [book_to_opds_entry]; a [Book] built by [search] has no commentary,
    genre or year. *)
Definition book_to_opds_entry (book : Book) (base_url : text) : OPDSEntry :=
  let names := match b_author book with
               | [] => []
               | _ => split "," (b_author book)
               end in
  {| entry_id := txt "urn:uuid:book-" ++ str_of_id (b_id book);
     entry_title := b_title book;
     summary := Some (txt "Book by "
                      ++ match names with
                         | [] => txt "Unknown Author"
                         | _ => join (txt ", ") names
                         end);
     authors := names;
     entry_language := b_language book;
     issued := None;
     categories := [];
     entry_links :=
       [ {| rel := txt "http://opds-spec.org/image/thumbnail";
            href := base_url ++ txt "/api/books/" ++ str_of_id (b_id book)
                    ++ txt "/cover";
            link_type := txt "image/jpeg";
            link_title := None |};
         {| rel := txt "http://opds-spec.org/acquisition/open-access";
            href := base_url ++ txt "/api/download/" ++ str_of_id (b_id book);
            link_type := txt "application/octet-stream";
            link_title := Some (txt "Download " ++ b_title book) |};
         {| rel := txt "alternate";
            href := base_url ++ txt "/opds/books/" ++ str_of_id (b_id book);
            link_type := ENTRY_TYPE;
            link_title := Some (txt "Complete catalog entry for "
                                ++ b_title book) |} ] |}.

(** [s.strip(c)] and [s.rstrip(c)] for one character [c]. *)
Fixpoint lstrip_char (c : ascii) (s : text) : text :=
  match s with
  | [] => []
  | x :: s' => if Ascii.eqb x c then lstrip_char c s' else s
  end.

Definition rstrip_char (c : ascii) (s : text) : text :=
  rev (lstrip_char c (rev s)).

Definition strip_char (c : ascii) (s : text) : text :=
  rstrip_char c (lstrip_char c s).

(** [OPDSFeedGenerator.__init__] keeps [base_url.rstrip('/')]. *)
Definition generator_base_url (base_url : text) : text :=
  rstrip_char "/" base_url.

Definition _get_feed_id (path : text) : text :=
  txt "urn:uuid:pybusta-" ++ strip_char "-" (replace "/" "-" path).

Definition _get_acquisition_links (base_url current_path : text)
  : list OPDSLink :=
  [ {| rel := txt "self";
       href := base_url ++ current_path;
       link_type := ACQUISITION;
       link_title := None |};
    {| rel := txt "start";
       href := base_url ++ txt "/opds";
       link_type := NAVIGATION;
       link_title := Some (txt "OPDS Catalog Root") |};
    {| rel := txt "up";
       href := base_url ++ txt "/opds";
       link_type := NAVIGATION;
       link_title := Some (txt "Up") |} ].

(** The tail of a paging link: [offset=...&limit=...]. *)
Definition paging (offset limit : Z) : text :=
  txt "offset=" ++ str_of_int offset ++ txt "&limit=" ++ str_of_int limit.

(** [a // b]; [None] stands for [ZeroDivisionError]. *)
Definition floordiv (a b : Z) : option Z :=
  if b =? 0 then None else Some (a / b).

Definition search_path (query : text) : text :=
  txt "/opds/search?query=" ++ query.

(** The body of the [try] of [generate_search_results]. *)
Definition search_results_body (fts : text -> result (list Z)) (s : Session)
  (base_url query : text) (limit offset : Z) : outcome OPDSFeed :=
  match SearchQuery_init (Some query) (Some query) None None None limit offset
  with
  | Raise msg => Raised (OtherError msg)
  | Ok search_query =>
      let result := search fts s search_query in
      let total := Z.of_nat (total_count result) in
      let pages := if 0 <? total then floordiv (total + limit - 1) limit
                   else Some 1 in
      match pages, floordiv offset limit with
      | Some total_pages, Some q =>
          let current := q + 1 in
          let previous :=
            if 1 <? current
            then [ {| rel := txt "previous";
                      href := base_url ++ search_path query ++ txt "&"
                              ++ paging (Z.max 0 (offset - limit)) limit;
                      link_type := ACQUISITION;
                      link_title := Some (txt "Previous") |} ]
            else [] in
          let next :=
            if current <? total_pages
            then [ {| rel := txt "next";
                      href := base_url ++ search_path query ++ txt "&"
                              ++ paging (offset + limit) limit;
                      link_type := ACQUISITION;
                      link_title := Some (txt "Next") |} ]
            else [] in
          Returned
            {| feed_id := _get_feed_id (txt "search-" ++ query);
               feed_title := txt "Search Results for '" ++ query ++ txt "'";
               feed_links := _get_acquisition_links base_url (search_path query)
                             ++ previous ++ next;
               entries := map (fun b => book_to_opds_entry b base_url)
                              (sr_books result);
               total_results := Some total;
               items_per_page := Some limit;
               start_index := Some (offset + 1) |}
      | _, _ => Raised (OtherError (txt "integer division or modulo by zero"))
      end
  end.

(** The feed of the [except] clause. *)
Definition search_error_feed (base_url query : text) : OPDSFeed :=
  {| feed_id := _get_feed_id (txt "search-error");
     feed_title := txt "Search Results for '" ++ query ++ txt "'";
     feed_links := _get_acquisition_links base_url (search_path query);
     entries := [];
     total_results := None;
     items_per_page := None;
     start_index := None |}.

Definition generate_search_results (fts : text -> result (list Z))
  (s : Session) (base_url query : text) (limit offset : Z) : OPDSFeed :=
  match search_results_body fts s base_url query limit offset with
  | Returned feed => feed
  | Raised _ => search_error_feed base_url query
  end.

(** [generate_new_publications], [generate_popular_publications] and
    [generate_all_publications] differ in the path, the feed id and the
    title only. *)
Definition generate_listing (name title : text)
  (fts : text -> result (list Z)) (s : Session) (base_url : text)
  (limit offset : Z) : outcome OPDSFeed :=
  match SearchQuery_init None None None None None limit offset with
  | Raise msg => Raised (OtherError msg)
  | Ok search_query =>
      let result := search fts s search_query in
      let path := txt "/opds/" ++ name in
      let previous :=
        if 0 <? offset
        then [ {| rel := txt "previous";
                  href := base_url ++ path ++ txt "?"
                          ++ paging (Z.max 0 (offset - limit)) limit;
                  link_type := ACQUISITION;
                  link_title := None |} ]
        else [] in
      let next :=
        if Z.of_nat (List.length (sr_books result)) =? limit
        then [ {| rel := txt "next";
                  href := base_url ++ path ++ txt "?"
                          ++ paging (offset + limit) limit;
                  link_type := ACQUISITION;
                  link_title := None |} ]
        else [] in
      Returned
        {| feed_id := _get_feed_id name;
           feed_title := title;
           feed_links := _get_acquisition_links base_url path
                         ++ previous ++ next;
           entries := map (fun b => book_to_opds_entry b base_url)
                          (sr_books result);
           total_results := Some (Z.of_nat (total_count result));
           items_per_page := Some limit;
           start_index := Some (offset + 1) |}
  end.


Definition generate_popular_publications :=
  generate_listing (txt "popular") (txt "Popular Publications").

Definition generate_all_publications :=
  generate_listing (txt "all") (txt "All Publications").





(** [GET /opds/search]; [limit] is [Query(20, ge=1, le=100)], [offset] is
    [Query(0, ge=0)]. *)
Definition opds_search (fts : text -> result (list Z)) (s : Session)
  (base_url query : text) (limit offset : Z) : outcome OPDSFeed :=
  if negb ((1 <=? limit) && (limit <=? 100) && (0 <=? offset))
  then Raised (HTTPException 422 None)
  else
    match strip query with
    | [] => Raised (HTTPException 400 (Some (txt "Search query cannot be empty")))
    | q => Returned (generate_search_results fts s base_url q limit offset)
    end.

End Opds.

(** ** Sample inputs *)

Module Samples.
Import PyStr Parser Exn Store Builder Query ExtractionEngine.

(** A catalog line: the fields joined by the separator, with the newline
    the file iterator leaves at the end. *)
Definition catalog_line (fields : list string) : text :=
  join [SEP] (map txt fields) ++ [ascii_of_nat 10].

Definition line_tolstoy : text :=
  catalog_line ["Tolstoy,Leo:"; "prose:classic"; " Anna Karenina "; "";
                ""; "42"; "1000"; ""; ""; "fb2"; "2020-01-01"; "ru"]%string.

(** The size field is [-5]. *)
Definition line_negative_size : text :=
  catalog_line ["Doe John"; "sf"; "Minus"; ""; ""; "7"; "-5"; ""; "";
                "fb2"; "2020-01-01"; "en"]%string.

(** Three fields only. *)
Definition line_short : text :=
  catalog_line ["Doe John"; "sf"; "Short"]%string.


(** Another edition of book 42. *)
Definition line_tolstoy_again : text :=
  catalog_line ["Tolstoy Leo"; "prose"; "Anna Karenina (2nd ed.)"; "";
                ""; "42"; "2000"; ""; ""; "epub"; "2021-01-01"; "ru"]%string.

(** [line_tolstoy] with other values in the unmapped fields and a
    thirteenth field. *)
Definition line_tolstoy_padded : text :=
  catalog_line ["Tolstoy,Leo:"; "prose:classic"; " Anna Karenina "; "x";
                "y"; "42"; "1000"; "z"; "1"; "fb2"; "2020-01-01"; "ru";
                "keywords"]%string.

Definition archive_a : text := txt "a.zip".

Definition empty_session : Session :=
  {| books := []; book_search := []; settings := []; utcnow := 0;
     writes := 0 |}.

(** A fresh database and no scratch directory. *)
Definition fresh_world : World :=
  {| session := empty_session; tmp_path := None |}.


(** A bundle of two catalog files that both list book 42. *)
Definition bundle_two_editions : Config :=
  {| index_file := Some
       {| md5_hexdigest := txt "0f343b0931126a20f133d67c2b018a3b";
          zip_members := Some [(txt "a.inp", File [line_tolstoy]);
                               (txt "b.inp", File [line_tolstoy_again])] |} |}.

(** A file at the bundle path that is not a zip archive. *)
Definition bundle_not_a_zip : Config :=
  {| index_file := Some
       {| md5_hexdigest := txt "d41d8cd98f00b204e9800998ecf8427e";
          zip_members := None |} |}.

(** A bundle whose only catalog file has no valid line. *)
Definition bundle_without_books : Config :=
  {| index_file := Some
       {| md5_hexdigest := txt "9e107d9d372bb6826bd81d3542a419d6";
          zip_members := Some [(txt "a.inp", File [line_short])] |} |}.

(** A bundle with an entry named like a catalog file that cannot be
    opened. *)
Definition bundle_with_directory : Config :=
  {| index_file := Some
       {| md5_hexdigest := txt "e4d909c290d0fb1ca068ffaddf22cbd0";
          zip_members := Some [(txt "a.inp", File [line_tolstoy]);
                               (txt "b.inp", Dir)] |} |}.

Definition book (id : Z) (title author : string) : BookRecord :=
  {| br_id := id;
     br_title := txt title;
     br_author := txt author;
     br_genre := Some (txt "prose");
     br_language := txt "ru";
     br_format := txt "fb2";
     br_size := 1000;
     br_archive_file := archive_a;
     br_date_added := Some 0 |}.

Definition karenina : BookRecord := book 42 "Anna Karenina" "Tolstoy Leo".

(** The record of the sanitisation example. *)
Definition part_one : BookRecord := book 9 "Book: Part One?" "J. Doe".

Definition abc : BookRecord := book 7 "abc" "Doe John".

Definition session_of (rows : list BookRecord) : Session :=
  {| books := rows; book_search := []; settings := []; utcnow := 0;
     writes := 0 |}.

(** The full-text index finds nothing, whatever the query. *)
Definition fts_finds_nothing (query : text) : result (list Z) := Ok [].

(** The full-text index returns book 7 for every phrase. *)
Definition fts_finds_seven (query : text) : result (list Z) := Ok [7].

(** The full-text table is missing. *)
Definition fts_unavailable (query : text) : result (list Z) :=
  Raise (txt "no such table: book_search_fts").

Definition query_title (term : string) : SearchQuery :=
  {| q_title := Some (txt term); q_author := None; q_genre := None;
     q_format := None; q_language := None; q_limit := 50; q_offset := 0 |}.

(** Fifty-five Russian books and five English ones. *)
Definition sixty_books : list BookRecord :=
  map (fun k => book (Z.of_nat k) "Sobranie sochinenii" "Tolstoy Leo")
      (seq 1 55)
  ++ map (fun k =>
            {| br_id := Z.of_nat k;
               br_title := txt "Collected works";
               br_author := txt "Doe John";
               br_genre := None;
               br_language := txt "en";
               br_format := txt "fb2";
               br_size := 1;
               br_archive_file := archive_a;
               br_date_added := None |})
         (seq 56 5).

(** [SearchQuery(language="ru", limit=20, offset=40)] *)
Definition query_third_page : SearchQuery :=
  {| q_title := None; q_author := None; q_genre := None;
     q_format := None; q_language := Some (txt "ru");
     q_limit := 20; q_offset := 40 |}.

Definition paths : Paths :=
  {| data_dir := txt "data"; extract_path := txt "data/books" |}.


(** A disk without the shard. *)
Definition disk_without_archive : FileSystem :=
  {| fs_mkdir := fun _ => Ok tt;
     fs_exists := fun _ => false;
     fs_zip_open := fun _ => Raise (txt "No such file or directory");
     fs_zip_extract := fun _ _ _ => Raise (txt "No such file or directory");
     fs_rename := fun _ _ => Raise (txt "No such file or directory");
     fs_stat_size := fun _ => Raise (txt "No such file or directory") |}.

(** A disk where everything succeeds; the member has 1000 bytes. *)
Definition disk_ok : FileSystem :=
  {| fs_mkdir := fun _ => Ok tt;
     fs_exists := fun _ => true;
     fs_zip_open := fun _ => Ok tt;
     fs_zip_extract := fun _ _ _ => Ok tt;
     fs_rename := fun _ _ => Ok tt;
     fs_stat_size := fun _ => Ok 1000%nat |}.

End Samples.

(** * Properties *)

(** ** Facts about the string primitives *)

Module PyStrFacts.
Import PyStr.

Lemma lstrip_decompose (s : text) :
  exists w, s = w ++ lstrip s /\ Forall (fun c => isspace c = true) w.
Proof.
  induction s as [|c s IH]; simpl.
  - exists []. split; [reflexivity | constructor].
  - destruct (isspace c) eqn:Hc.
    + destruct IH as [w [Hw Hall]]. exists (c :: w). split.
      * simpl. rewrite <- Hw. reflexivity.
      * constructor; assumption.
    + exists []. split; [reflexivity | constructor].
Qed.

Lemma lstrip_head (s : text) :
  match lstrip s with
  | [] => True
  | c :: _ => isspace c = false
  end.
Proof.
  induction s as [|c s IH]; simpl; [exact I |].
  destruct (isspace c) eqn:Hc; [exact IH | exact Hc].
Qed.

Lemma lstrip_fixed (s : text) :
  match s with [] => True | c :: _ => isspace c = false end ->
  lstrip s = s.
Proof.
  destruct s as [|c s]; simpl; intro H; [reflexivity |].
  rewrite H. reflexivity.
Qed.

Lemma lstrip_idempotent (s : text) : lstrip (lstrip s) = lstrip s.
Proof. apply lstrip_fixed, lstrip_head. Qed.

Lemma rstrip_decompose (s : text) :
  exists w, s = rstrip s ++ w /\ Forall (fun c => isspace c = true) w.
Proof.
  unfold rstrip. destruct (lstrip_decompose (rev s)) as [w [Hw Hall]].
  exists (rev w). split.
  - rewrite <- rev_app_distr, <- Hw, rev_involutive. reflexivity.
  - apply Forall_rev. exact Hall.
Qed.

Lemma strip_decompose (s : text) :
  exists w1 w2, s = w1 ++ strip s ++ w2
                /\ Forall (fun c => isspace c = true) w1
                /\ Forall (fun c => isspace c = true) w2.
Proof.
  destruct (lstrip_decompose s) as [w1 [H1 A1]].
  destruct (rstrip_decompose (lstrip s)) as [w2 [H2 A2]].
  exists w1, w2. unfold strip. rewrite <- H2. auto.
Qed.

Lemma strip_incl (s : text) (c : ascii) : In c (strip s) -> In c s.
Proof.
  destruct (strip_decompose s) as [w1 [w2 [H _]]]. intro Hin.
  rewrite H. apply in_or_app. right. apply in_or_app. left. exact Hin.
Qed.

Lemma rstrip_head (s : text) :
  match s with [] => True | c :: _ => isspace c = false end ->
  match rstrip s with [] => True | c :: _ => isspace c = false end.
Proof.
  intro H. destruct (rstrip_decompose s) as [w [Hw _]].
  destruct (rstrip s) as [|c r]; [exact I |].
  rewrite Hw in H. exact H.
Qed.

Lemma lstrip_strip (s : text) : lstrip (strip s) = strip s.
Proof. apply lstrip_fixed. unfold strip. apply rstrip_head, lstrip_head. Qed.

Lemma rstrip_rstrip (s : text) : rstrip (rstrip s) = rstrip s.
Proof.
  unfold rstrip. rewrite rev_involutive, lstrip_idempotent. reflexivity.
Qed.

(** [strip] leaves nothing for a second [strip] to remove. *)
Lemma strip_idempotent (s : text) : strip (strip s) = strip s.
Proof.
  unfold strip at 1. rewrite lstrip_strip. unfold strip.
  apply rstrip_rstrip.
Qed.

Lemma remove_not_in (a : ascii) (s : text) : ~ In a (remove a s).
Proof.
  unfold remove. intro H. apply filter_In in H. destruct H as [_ H].
  rewrite Ascii.eqb_refl in H. discriminate.
Qed.

Lemma remove_incl (a c : ascii) (s : text) : In c (remove a s) -> In c s.
Proof. unfold remove. intro H. apply filter_In in H. tauto. Qed.

Lemma replace_not_in (a b : ascii) (s : text) :
  a <> b -> ~ In a (replace a b s).
Proof.
  unfold replace. intros Hab H. apply in_map_iff in H.
  destruct H as [c [Hc _]]. destruct (Ascii.eqb c a) eqn:E.
  - congruence.
  - apply Ascii.eqb_neq in E. congruence.
Qed.




End PyStrFacts.

(** ** Facts about the store *)

Module StoreFacts.
Import PyStr Parser Exn Store.











(** The effect of [_store_book_data] when the id is a number. *)
Lemma store_book_data_ok (bd : BookData) (i : Z) (s : Session) :
  int (bd_bookid bd) = Some i ->
  _store_book_data bd s =
    ({| books := merge_book (utcnow s)
                   {| br_id := i;
                      br_title := bd_title bd;
                      br_author := bd_author bd;
                      br_genre := Some (bd_genre bd);
                      br_language := bd_language bd;
                      br_format := bd_format bd;
                      br_size := bd_size bd;
                      br_archive_file := bd_archive_file bd;
                      br_date_added := None |} (books s);
        book_search := merge_search
                   {| bs_rowid := None;
                      bs_id := i;
                      bs_author := upper (bd_author bd);
                      bs_title := upper (bd_title bd);
                      bs_language := bd_language bd |} (book_search s);
        settings := settings s;
        utcnow := utcnow s;
        writes := S (S (writes s)) |}, Ok tt).
Proof.
  intro H. unfold _store_book_data, try_except, bind, int_bookid.
  rewrite H. reflexivity.
Qed.







End StoreFacts.

(** ** The catalog parser *)

Module ParserSpec.
Import PyStr Parser Exn Store PyStrFacts StoreFacts Samples.


Lemma int_strip (s : text) : int (strip s) = int s.
Proof. unfold int. rewrite strip_idempotent. reflexivity. Qed.

(** What a successful parse returns. *)
Lemma parse_some_inv (line archive_name : text) (bd : BookData) :
  _parse_book_metadata line archive_name = Some bd ->
  let fields := split SEP (strip line) in
  (12 <= List.length fields)%nat
  /\ bd_author bd = clean_author (field fields 0)
  /\ bd_genre bd = clean_genre (field fields 1)
  /\ bd_title bd = strip (field fields 2)
  /\ bd_bookid bd = field fields 5
  /\ bd_size bd = parse_size (field fields 6)
  /\ bd_archive_file bd = archive_name
  /\ bd_bookid bd <> [] /\ bd_title bd <> [] /\ bd_author bd <> [].
Proof.
  intro H. unfold _parse_book_metadata in H. cbv zeta in *.
  set (fields := split SEP (strip line)) in *.
  destruct (List.length fields <? 12)%nat eqn:Hlen; [discriminate |].
  apply Nat.ltb_ge in Hlen.
  destruct (is_empty (field fields 5)) eqn:E1; [discriminate |].
  destruct (is_empty (strip (field fields 2))) eqn:E2; [discriminate |].
  destruct (is_empty (clean_author (field fields 0))) eqn:E3; [discriminate |].
  simpl in H. inversion H; subst; simpl.
  repeat split; try reflexivity; try exact Hlen;
    intro Hnil; rewrite Hnil in *; discriminate.
Qed.

(** C9 (as amended): on every successfully parsed line the author is the
    trimmed field with each comma replaced by a space and each colon
    removed, so it holds neither and is trimmed; the title is trimmed; the
    genre is the field with colons removed, trimmed; the size is [int] of
    the size field, an integer of either sign, and 0 whenever [int]
    fails. *)
Theorem parsed_fields_are_cleaned (line archive_name : text) (bd : BookData) :
  _parse_book_metadata line archive_name = Some bd ->
  let fields := split SEP (strip line) in
  (bd_author bd = strip (remove ":" (replace "," " " (strip (nth 0 fields []))))
   /\ ~ In "," (bd_author bd) /\ ~ In ":" (bd_author bd)
   /\ strip (bd_author bd) = bd_author bd)
  /\ (bd_title bd = strip (nth 2 fields [])
      /\ strip (bd_title bd) = bd_title bd)
  /\ (bd_genre bd = strip (remove ":" (strip (nth 1 fields [])))
      /\ ~ In ":" (bd_genre bd)
      /\ strip (bd_genre bd) = bd_genre bd)
  /\ (bd_size bd = match int (nth 6 fields []) with
                   | Some n => n
                   | None => 0
                   end)
  /\ (int (nth 6 fields []) = None -> bd_size bd = 0).
Proof.
  intro H.
  destruct (parse_some_inv line archive_name bd H)
    as [_ [Ha [Hg [Ht [_ [Hs _]]]]]].
  cbv zeta in *. set (fields := split SEP (strip line)) in *.
  assert (Hsize : bd_size bd = match int (nth 6 fields []) with
                               | Some n => n
                               | None => 0
                               end).
  { rewrite Hs. unfold parse_size, field. rewrite int_strip. reflexivity. }
  repeat split.
  - exact Ha.
  - rewrite Ha. unfold clean_author. intro Hin.
    apply strip_incl, remove_incl in Hin.
    revert Hin. apply replace_not_in. discriminate.
  - rewrite Ha. unfold clean_author. intro Hin.
    apply strip_incl in Hin. revert Hin. apply remove_not_in.
  - rewrite Ha. unfold clean_author. apply strip_idempotent.
  - rewrite Ht. unfold field. apply strip_idempotent.
  - rewrite Ht. apply strip_idempotent.
  - exact Hg.
  - rewrite Hg. unfold clean_genre. intro Hin.
    apply strip_incl in Hin. revert Hin. apply remove_not_in.
  - rewrite Hg. unfold clean_genre. apply strip_idempotent.
  - exact Hsize.
  - intro Hnone. rewrite Hsize, Hnone. reflexivity.
Qed.

Lemma parsed_fields_are_cleaned_witness :
  exists bd,
    _parse_book_metadata line_tolstoy archive_a = Some bd
    /\ bd_author bd = txt "Tolstoy Leo"
    /\ ~ In "," (bd_author bd)
    /\ bd_size bd = 1000.
Proof.
  eexists. split; [vm_compute; reflexivity |].
  split; [reflexivity |]. split; [| reflexivity].
  exact (proj1 (proj2 (proj1
    (parsed_fields_are_cleaned line_tolstoy archive_a _ eq_refl)))).
Defined.

(** C9 as stated fails: a line whose size field is [-5] parses, and its
    size is negative. *)
Lemma parsed_size_can_be_negative :
  exists bd,
    _parse_book_metadata line_negative_size archive_a = Some bd
    /\ bd_size bd = -5
    /\ bd_size bd < 0.
Proof.
  eexists. split; [vm_compute; reflexivity |]. split; reflexivity.
Qed.






End ParserSpec.

(** ** Upserts into [books] and [book_search] *)

Module StoreSpec.
Import PyStr Parser Exn Store Builder PyStrFacts StoreFacts Samples.



(** A stored record always adds a row to [book_search]. *)
Lemma store_appends_projection_row (bd : BookData) (i : Z) (s : Session) :
  int (bd_bookid bd) = Some i ->
  exists row,
    book_search (fst (_store_book_data bd s)) = book_search s ++ [row]
    /\ bs_id row = i.
Proof.
  intro H. rewrite (store_book_data_ok bd i s H). simpl.
  unfold merge_search. simpl. eexists. split; reflexivity.
Qed.

(** C8 fails on the code: a bundle whose two catalog files both list book
    42 leaves one row in [books] and two rows of id 42 in
    [book_search]. *)
Theorem projection_row_is_duplicated :
  exists w,
    create_index bundle_two_editions fresh_world = (w, Ok tt)
    /\ ids (books (session w)) = [42]
    /\ map bs_id (book_search (session w)) = [42; 42]
    /\ map bs_rowid (book_search (session w)) = [Some 1; Some 2].
Proof.
  eexists. split; [vm_compute; reflexivity |].
  repeat split.
Qed.

End StoreSpec.

(** ** The index builder *)

Module BuilderSpec.
Import PyStr Parser Exn Store Builder PyStrFacts StoreFacts Samples.

Lemma bind_ok_inv {S A B} (m : M S A) (k : A -> M S B) (s s' : S) (b : B) :
  bind m k s = (s', Ok b) ->
  exists s1 a, m s = (s1, Ok a) /\ k a s1 = (s', Ok b).
Proof.
  unfold bind. destruct (m s) as [s1 [a | msg]]; intro H.
  - exists s1, a. auto.
  - discriminate.
Qed.

Lemma try_finally_cleanup_inv {A} (body : M World A) (w w' : World)
  (r : result A) :
  try_finally body cleanup_tmp w = (w', r) ->
  exists w1, body w = (w1, r)
             /\ w' = {| session := session w1; tmp_path := None |}.
Proof.
  unfold try_finally, cleanup_tmp, modify.
  destruct (body w) as [w1 r1]. intro H. inversion H; subst.
  exists w1. auto.
Qed.

Lemma text_eqb_refl (a : text) : text_eqb a a = true.
Proof.
  unfold text_eqb. destruct (list_eq_dec ascii_dec a a); congruence.
Qed.

Lemma text_eqb_eq (a b : text) : text_eqb a b = true <-> a = b.
Proof.
  unfold text_eqb. destruct (list_eq_dec ascii_dec a b); split; congruence.
Qed.

Lemma find_set_value (name value : text) (rows : list SettingsRecord)
  (old : SettingsRecord) :
  find (fun r => text_eqb (st_name r) name) rows = Some old ->
  find (fun r => text_eqb (st_name r) name) (set_value name value rows)
  = Some {| st_name := st_name old; st_value := Some value |}.
Proof.
  induction rows as [|r rest IH]; simpl; [discriminate |].
  destruct (text_eqb (st_name r) name) eqn:E; simpl.
  - intro H. inversion H; subst. rewrite E. reflexivity.
  - rewrite E. exact IH.
Qed.

Lemma find_app_none {A} (f : A -> bool) (l : list A) (x : A) :
  find f l = None -> f x = true -> find f (l ++ [x]) = Some x.
Proof.
  induction l as [|y l IH]; simpl; intros Hnone Hx.
  - rewrite Hx. reflexivity.
  - destruct (f y); [discriminate | auto].
Qed.

(** [_get_stored_checksum] reads back what [_store_checksum] wrote. *)
Lemma stored_checksum_read_back (checksum : text) (s : Session) :
  _get_stored_checksum (fst (_store_checksum checksum s)) = Some checksum.
Proof.
  unfold _store_checksum, modify, _get_stored_checksum. simpl.
  destruct (find (fun r => text_eqb (st_name r) CHECKSUM_KEY) (settings s))
    as [old|] eqn:E.
  - rewrite (find_set_value CHECKSUM_KEY checksum (settings s) old E).
    reflexivity.
  - rewrite (find_app_none _ (settings s)
               {| st_name := CHECKSUM_KEY; st_value := Some checksum |} E).
    + reflexivity.
    + simpl. apply text_eqb_refl.
Qed.

Lemma store_checksum_keeps_books (checksum : text) (s : Session) :
  books (fst (_store_checksum checksum s)) = books s.
Proof. reflexivity. Qed.

(** A rebuild that returns has stored the digest of the bundle it read. *)
Lemma create_index_ok_checksum (cfg : Config) (w w' : World) :
  create_index cfg w = (w', Ok tt) ->
  exists f, index_file cfg = Some f
            /\ _get_stored_checksum (session w') = Some (md5_hexdigest f)
            /\ tmp_path w' = None.
Proof.
  unfold create_index. destruct (index_file cfg) as [f|] eqn:Hf;
    [| discriminate].
  intro H. exists f. split; [reflexivity |].
  apply bind_ok_inv in H. destruct H as [w1 [[] [_ H]]].
  apply bind_ok_inv in H. destruct H as [w2 [[] [_ H]]].
  apply try_finally_cleanup_inv in H. destruct H as [w3 [H Hw']].
  subst w'. simpl. split; [| reflexivity].
  apply bind_ok_inv in H. destruct H as [w4 [w4' [_ H]]].
  apply bind_ok_inv in H. destruct H as [w5 [total [_ H]]].
  unfold in_session in H.
  destruct ((bind (_store_checksum (_calculate_index_checksum cfg))
               (fun _ => commit)) (session w5)) as [s6 r6] eqn:E.
  inversion H; subst; simpl. clear H.
  unfold bind, commit, ret in E.
  pose proof (stored_checksum_read_back (_calculate_index_checksum cfg)
                (session w5)) as Hread.
  destruct (_store_checksum (_calculate_index_checksum cfg) (session w5))
    as [s7 [[]|msg]] eqn:E7; [| discriminate].
  inversion E; subst. simpl in Hread.
  unfold _calculate_index_checksum in Hread. rewrite Hf in Hread.
  exact Hread.
Qed.

Lemma option_text_eqb_eq (a b : option text) :
  option_text_eqb a b = true <-> a = b.
Proof.
  destruct a as [x|], b as [y|]; simpl; try (split; congruence).
  rewrite text_eqb_eq. split; congruence.
Qed.

Lemma should_rebuild_iff (cfg : Config) (s : Session) :
  _should_rebuild_index cfg s = true <->
  exists f, index_file cfg = Some f
            /\ (books s = []
                \/ _get_stored_checksum s <> Some (md5_hexdigest f)).
Proof.
  unfold _should_rebuild_index, _calculate_index_checksum.
  destruct (index_file cfg) as [f|].
  - destruct (books s) as [|b rest] eqn:Hb; simpl.
    + split; [intros _; exists f; auto | reflexivity].
    + rewrite negb_true_iff. split.
      * intro H. exists f. split; [reflexivity |]. right. intro Heq.
        rewrite Heq in H. simpl in H. rewrite text_eqb_refl in H.
        discriminate.
      * intros [f' [Hf [Hnil | Hne]]]; [discriminate |].
        inversion Hf; subst f'.
        apply not_true_is_false. intro E.
        change (option_text_eqb (Some (md5_hexdigest f))
                  (_get_stored_checksum s) = true) in E.
        apply option_text_eqb_eq in E. congruence.
  - split; [discriminate | intros [f [H _]]; discriminate].
Qed.

(** C7 (as amended): the staleness check asks for a rebuild exactly when
    the catalog file exists and the store has no BookRecord or the digest
    of the file differs from the stored checksum; with the file missing
    nothing is rebuilt; and after a build that returned and left at least
    one BookRecord, the builder run on the unchanged bundle leaves the
    world, with its count of write statements, as it was. *)
Theorem rebuild_is_gated_by_checksum (cfg : Config) (w : World) :
  (_should_rebuild_index cfg (session w) = true <->
   exists f, index_file cfg = Some f
             /\ (books (session w) = []
                 \/ _get_stored_checksum (session w)
                    <> Some (md5_hexdigest f)))
  /\ (index_file cfg = None ->
      _should_rebuild_index cfg (session w) = false
      /\ init_index cfg w = (w, Ok tt))
  /\ (forall w',
        create_index cfg w = (w', Ok tt) ->
        books (session w') <> [] ->
        _should_rebuild_index cfg (session w') = false
        /\ init_index cfg w' = (w', Ok tt)
        /\ writes (session (fst (init_index cfg w'))) = writes (session w')).
Proof.
  split; [apply should_rebuild_iff |]. split.
  - intro Hnone. unfold init_index, _should_rebuild_index.
    rewrite Hnone. auto.
  - intros w' Hbuild Hbooks.
    destruct (create_index_ok_checksum cfg w w' Hbuild) as [f [Hf [Hsum _]]].
    assert (Hno : _should_rebuild_index cfg (session w') = false).
    { destruct (_should_rebuild_index cfg (session w')) eqn:E;
        [| reflexivity].
      apply should_rebuild_iff in E.
      destruct E as [f' [Hf' [Hnil | Hne]]]; [contradiction |].
      rewrite Hf in Hf'. inversion Hf'; subst f'. contradiction. }
    unfold init_index. rewrite Hno. auto.
Qed.

Lemma rebuild_is_gated_by_checksum_witness :
  exists w',
    create_index bundle_two_editions fresh_world = (w', Ok tt)
    /\ init_index bundle_two_editions w' = (w', Ok tt).
Proof.
  eexists. split; [vm_compute; reflexivity |].
  refine (proj1 (proj2 (proj2 (proj2 (rebuild_is_gated_by_checksum
            bundle_two_editions fresh_world)) _ eq_refl _))).
  vm_compute. discriminate.
Defined.

(** C7 as stated fails: a bundle without a valid line builds with no
    BookRecord, so the next start rebuilds it although nothing changed, and
    issues three more write statements. *)
Lemma empty_catalog_is_rebuilt_again :
  exists w',
    create_index bundle_without_books fresh_world = (w', Ok tt)
    /\ books (session w') = []
    /\ _should_rebuild_index bundle_without_books (session w') = true
    /\ writes (session w') = 3%nat
    /\ writes (session (fst (init_index bundle_without_books w'))) = 6%nat.
Proof.
  eexists. split; [vm_compute; reflexivity |].
  repeat split.
Qed.

(** Once the archive is unpacked the [finally] clause runs on every exit,
    and the scratch directory is gone when [create_index] returns or
    raises. *)
Lemma scratch_dir_removed_once_extracted (cfg : Config) (f : IndexFile)
  (members : list (text * Entry)) (w : World) :
  index_file cfg = Some f ->
  zip_members f = Some members ->
  tmp_path (fst (create_index cfg w)) = None.
Proof.
  intros Hf Hm. unfold create_index. rewrite Hf.
  unfold bind at 1.
  destruct (in_session (bind clear_existing_data (fun _ => commit)) w)
    as [w1 [[]|msg]] eqn:E1.
  2:{ unfold in_session, bind, clear_existing_data, commit, modify, ret in E1.
      simpl in E1. discriminate. }
  unfold bind at 1. unfold _extract_index_archive. rewrite Hm.
  unfold bind at 1. unfold modify at 1. unfold modify at 1.
  match goal with
  | |- tmp_path (fst (try_finally ?b cleanup_tmp ?st)) = None =>
      destruct (try_finally b cleanup_tmp st) as [w' r] eqn:E;
      apply try_finally_cleanup_inv in E; destruct E as [w3 [_ Hw']];
      subst w'; reflexivity
  end.
Qed.

(** When unpacking raises, [create_index] raises with it and the scratch
    directory, which [_extract_index_archive] has created, stays. *)
Lemma scratch_dir_kept_when_extraction_raises (cfg : Config) (f : IndexFile)
  (w : World) :
  index_file cfg = Some f ->
  zip_members f = None ->
  exists msg,
    snd (create_index cfg w) = Raise msg
    /\ tmp_path (fst (create_index cfg w)) <> None.
Proof.
  intros Hf Hm. unfold create_index. rewrite Hf.
  unfold _extract_index_archive. rewrite Hm.
  unfold bind, in_session, clear_existing_data, commit, modify, ret, raise.
  simpl. eexists. split; [reflexivity |].
  destruct (tmp_path w); discriminate.
Qed.

(** C3 fails on the code: with a bundle that is not a zip archive
    [create_index] raises out of [_extract_index_archive], before its
    [try], and returns with the scratch directory it has just created. *)
Theorem failed_extraction_leaves_scratch_dir :
  exists w msg,
    create_index bundle_not_a_zip fresh_world = (w, Raise msg)
    /\ tmp_path fresh_world = None
    /\ tmp_path w = Some [].
Proof.
  eexists. eexists. split; [vm_compute; reflexivity |].
  split; reflexivity.
Qed.

(** An exception inside the [try] meets the [finally]: the entry that
    cannot be opened makes [create_index] raise, the scratch directory is
    removed, and the rows written before stay. *)
Lemma failure_after_extraction_cleans_up :
  exists w msg,
    create_index bundle_with_directory fresh_world = (w, Raise msg)
    /\ tmp_path w = None
    /\ ids (books (session w)) = [42].
Proof.
  eexists. eexists. split; [vm_compute; reflexivity |].
  split; reflexivity.
Qed.

End BuilderSpec.

(** ** The query engine *)

Module QueryFacts.
Import PyStr Exn Store Query.















End QueryFacts.

Module QuerySpec.
Import PyStr Exn Store Query QueryFacts Samples.








Lemma page_length {A} (limit offset : Z) (rows : list A) :
  0 <= offset -> 0 <= limit ->
  List.length (sql_limit limit (sql_offset offset rows))
  = Nat.min (Z.to_nat limit) (List.length rows - Z.to_nat offset).
Proof.
  intros Ho Hl. unfold sql_limit, sql_offset.
  destruct (limit <? 0) eqn:E; [apply Z.ltb_lt in E; lia |].
  rewrite length_firstn, length_skipn. reflexivity.
Qed.



Lemma api_query_bounds (title author genre format language : option text)
  (limit offset : Z) (q : SearchQuery) :
  api_search_query title author genre format language limit offset = Ok q ->
  1 <= q_limit q <= 1000 /\ 0 <= q_offset q.
Proof.
  unfold api_search_query, SearchQuery_init.
  destruct ((1 <=? limit) && (limit <=? 1000) && (0 <=? offset)) eqn:E;
    [| discriminate].
  apply andb_true_iff in E. destruct E as [E E3].
  apply andb_true_iff in E. destruct E as [E1 E2].
  simpl. destruct (negb _); [discriminate |].
  intro H. inversion H; subst; simpl. lia.
Qed.

Lemma cli_query_bounds (title author genre format language : option text)
  (limit offset : Z) (q : SearchQuery) :
  cli_search_query title author genre format language limit offset = Ok q ->
  1 <= q_limit q <= 1000 /\ 0 <= q_offset q.
Proof.
  unfold cli_search_query, SearchQuery_init.
  destruct ((1 <=? limit) && (limit <=? 1000)) eqn:E; [| discriminate].
  apply andb_true_iff in E. destruct E as [E1 E2].
  destruct (0 <=? offset) eqn:E3; [| discriminate].
  simpl. destruct (negb _); [discriminate |].
  intro H. inversion H; subst; simpl. lia.
Qed.

(** C10 (as amended): the query model accepts every integer [limit] and
    [offset] and keeps them as given; the bounds 1 to 1000 on [limit] and
    0 on [offset] are those of the callers, the [/api/search] route and the
    [search] command, which reject a value out of range before they build
    the query. *)
Theorem pagination_bounds_belong_to_callers
  (title author genre format language : option text) (limit offset : Z) :
  (exists q,
     SearchQuery_init title author genre format language limit offset = Ok q
     /\ q_limit q = limit /\ q_offset q = offset)
  /\ (forall q,
        api_search_query title author genre format language limit offset
        = Ok q ->
        1 <= q_limit q <= 1000 /\ 0 <= q_offset q)
  /\ (forall q,
        cli_search_query title author genre format language limit offset
        = Ok q ->
        1 <= q_limit q <= 1000 /\ 0 <= q_offset q)
  /\ (limit < 1 \/ 1000 < limit \/ offset < 0 ->
      (exists msg,
         api_search_query title author genre format language limit offset
         = Raise msg)
      /\ (exists msg,
            cli_search_query title author genre format language limit offset
            = Raise msg)).
Proof.
  split; [eexists; split; [reflexivity | split; reflexivity] |].
  split; [intro q; apply api_query_bounds |].
  split; [intro q; apply cli_query_bounds |].
  intro H. unfold api_search_query, cli_search_query.
  destruct (1 <=? limit) eqn:E1; destruct (limit <=? 1000) eqn:E2;
    destruct (0 <=? offset) eqn:E3; simpl;
    try (split; eexists; reflexivity).
  apply Z.leb_le in E1, E2, E3. lia.
Qed.

Lemma pagination_bounds_belong_to_callers_witness :
  (exists msg,
     api_search_query (Some (txt "war")) None None None None 0 (-1)
     = Raise msg)
  /\ (exists msg,
        cli_search_query (Some (txt "war")) None None None None 0 (-1)
        = Raise msg).
Proof.
  apply (pagination_bounds_belong_to_callers
           (Some (txt "war")) None None None None 0 (-1)).
  left. lia.
Defined.

(** C10 as stated fails: the model accepts limit 0 and offset -1. *)
Lemma query_model_accepts_any_pagination :
  exists q,
    SearchQuery_init (Some (txt "war")) None None None None 0 (-1) = Ok q
    /\ q_limit q = 0 /\ q_limit q < 1
    /\ q_offset q = -1 /\ q_offset q < 0.
Proof. eexists. repeat split. Qed.

End QuerySpec.

(** ** The extraction engine *)

Module ExtractionSpec.
Import PyStr Exn Store ExtractionEngine Samples.





(** Extracting an id that is not in the store touches nothing on disk. *)
Lemma missing_book_creates_no_file :
  exists fr res,
    extract_book paths disk_ok (session_of [karenina]) 43 empty_frame
    = (fr, Ok res)
    /\ success res = false
    /\ error_message res = Some (txt "Book with ID 43 not found")
    /\ effects fr = [].
Proof. eexists. eexists. repeat split. Qed.

End ExtractionSpec.

(** ** Further properties of the store and the builder *)

Module StoreExtras.
Import PyStr Parser Exn Store Builder PyStrFacts StoreFacts BuilderSpec Samples.











End StoreExtras.

Module BuilderExtras.
Import PyStr Parser Exn Store Builder PyStrFacts StoreFacts BuilderSpec
       StoreExtras Samples.
















End BuilderExtras.

(** ** Further properties of the query model and the query engine *)

Module QueryExtras.
Import PyStr Exn Store Query Models PyStrFacts QueryFacts Samples.





(** When the FTS lookup for a title of more than two characters returns at
    least one id, a title-only query returns exactly the BookRecords whose
    id is among those ids; a record that contains the term but is not in
    the FTS answer is not returned. *)
Theorem fts_ids_decide_the_matches (fts : text -> result (list Z))
  (rows : list BookRecord) (term : text) (i : Z) (book_ids : list Z)
  (limit offset : Z) :
  (2 < List.length term)%nat ->
  fts (title_fts_query term) = Ok (i :: book_ids) ->
  forall r,
    In r (matching fts
            {| q_title := Some term; q_author := None; q_genre := None;
               q_format := None; q_language := None;
               q_limit := limit; q_offset := offset |} rows)
    <-> In r rows /\ In (br_id r) (i :: book_ids).
Proof.
  intros Hlen Hfts r. unfold matching. rewrite filter_In.
  destruct term as [|c term]; [simpl in Hlen; lia |].
  unfold conditions. cbn [q_title q_author q_genre q_format q_language
                          when_set app].
  unfold _build_title_condition. apply Nat.ltb_lt in Hlen.
  rewrite Hlen, Hfts. cbn [forallb eval_condition].
  rewrite andb_true_r, existsb_exists.
  split; intros [Hin H]; (split; [exact Hin |]).
  - destruct H as [k [Hk Hkr]]. apply Z.eqb_eq in Hkr. subst. exact Hk.
  - exists (br_id r). split; [exact H | apply Z.eqb_refl].
Qed.

Lemma fts_ids_decide_the_matches_witness :
  icontains (txt "Karen") (br_title karenina) = true
  /\ ~ In karenina (matching fts_finds_seven (query_title "Karen")
                      [abc; karenina])
  /\ In abc (matching fts_finds_seven (query_title "Karen") [abc; karenina]).
Proof.
  assert (Hlen : (2 < List.length (txt "Karen"))%nat) by (vm_compute; lia).
  pose proof (fts_ids_decide_the_matches fts_finds_seven [abc; karenina]
                (txt "Karen") 7 [] 50 0 Hlen eq_refl) as T.
  split; [reflexivity |]. split.
  - intro H. apply (T karenina) in H. destruct H as [_ [H | []]].
    discriminate H.
  - apply (T abc). split; [left; reflexivity | left; reflexivity].
Defined.





End QueryExtras.

(** ** The validators of the models *)

Module ModelsExtras.
Import PyStr Exn Store Query Models PyStrFacts QueryFacts QueryExtras Samples.

Lemma split_ws_words (s : text) :
  forall cur, Forall (fun c => isspace c = false) cur ->
              Forall is_word (split_ws cur s).
Proof.
  induction s as [|c s IH]; intros cur Hcur; simpl.
  - destruct cur as [|x cur]; [constructor |].
    constructor; [| constructor]. split.
    + intro H. apply (f_equal (@List.length ascii)) in H.
      rewrite length_rev in H. discriminate.
    + apply Forall_rev. exact Hcur.
  - destruct (isspace c) eqn:Hc.
    + destruct cur as [|x cur]; [apply IH; constructor |].
      constructor; [| apply IH; constructor]. split.
      * intro H. apply (f_equal (@List.length ascii)) in H.
        rewrite length_rev in H. discriminate.
      * apply Forall_rev. exact Hcur.
    + apply IH. constructor; assumption.
Qed.

Lemma split_ws_app_word (w rest : text) :
  Forall (fun c => isspace c = false) w ->
  forall cur, split_ws cur (w ++ rest) = split_ws (rev w ++ cur) rest.
Proof.
  induction 1 as [|c w Hc _ IH]; intro cur; simpl; [reflexivity |].
  rewrite Hc, IH, <- app_assoc. reflexivity.
Qed.

Lemma split_ws_one_word (w : text) :
  is_word w -> split_ws [] w = [w].
Proof.
  intros [Hne Hall]. rewrite <- (app_nil_r w) at 1.
  rewrite (split_ws_app_word w [] Hall), app_nil_r. simpl.
  destruct (rev w) as [|x r] eqn:E.
  - apply (f_equal (@rev ascii)) in E. rewrite rev_involutive in E.
    simpl in E. contradiction.
  - rewrite <- E, rev_involutive. reflexivity.
Qed.

(** Splitting what [join] put together gives the words back. *)
Lemma split_ws_join (ws : list text) :
  Forall is_word ws -> split_ws [] (join [" "] ws) = ws.
Proof.
  induction 1 as [|p rest Hp Hrest IH]; [reflexivity |].
  destruct rest as [|q rest].
  - simpl. apply split_ws_one_word, Hp.
  - change (join [" "] (p :: q :: rest))
      with (p ++ [" "] ++ join [" "] (q :: rest)).
    destruct Hp as [Hne Hall].
    rewrite (split_ws_app_word p _ Hall), app_nil_r.
    cbn [app split_ws]. change (isspace " ") with true. cbv iota.
    destruct (rev p) as [|x r] eqn:E.
    + apply (f_equal (@rev ascii)) in E. rewrite rev_involutive in E.
      simpl in E. contradiction.
    + rewrite <- E, rev_involutive, IH. reflexivity.
Qed.

Lemma split_ws_leading (w t : text) :
  Forall (fun c => isspace c = true) w ->
  split_ws [] (w ++ t) = split_ws [] t.
Proof.
  induction 1 as [|c w Hc _ IH]; simpl; [reflexivity |].
  rewrite Hc. exact IH.
Qed.

Lemma split_ws_spaces (w : text) :
  Forall (fun c => isspace c = true) w ->
  forall cur, split_ws cur w = split_ws cur [].
Proof.
  induction 1 as [|c w Hc _ IH]; intro cur; [reflexivity |].
  simpl. rewrite Hc. destruct cur as [|x cur]; rewrite IH; reflexivity.
Qed.

Lemma split_ws_trailing (t w : text) :
  Forall (fun c => isspace c = true) w ->
  forall cur, split_ws cur (t ++ w) = split_ws cur t.
Proof.
  intro Hw. induction t as [|c t IH]; intro cur.
  - simpl app. apply split_ws_spaces, Hw.
  - simpl. destruct (isspace c); [| apply IH].
    destruct cur; rewrite IH; reflexivity.
Qed.

(** [strip] does not change the words of a text. *)
Lemma split_ws_strip (s : text) : split_ws [] (strip s) = split_ws [] s.
Proof.
  destruct (strip_decompose s) as [w1 [w2 [H [A1 A2]]]].
  rewrite H at 2.
  rewrite (split_ws_leading w1 _ A1), (split_ws_trailing _ w2 A2).
  reflexivity.
Qed.

Lemma clean_search_terms_eq (v : option text) :
  clean_search_terms v
  = option_map (fun s => join [" "] (split_ws [] s)) v.
Proof. destruct v as [[|c s]|]; reflexivity. Qed.

Lemma clean_words_fixed (s : text) :
  split_ws [] (join [" "] (split_ws [] s)) = split_ws [] s.
Proof. apply split_ws_join, split_ws_words. constructor. Qed.

Lemma clean_search_terms_strip (v : option text) :
  clean_search_terms (option_map strip v) = clean_search_terms v.
Proof.
  rewrite !clean_search_terms_eq. destruct v as [s|]; simpl; [| reflexivity].
  rewrite split_ws_strip. reflexivity.
Qed.

Lemma clean_search_terms_idempotent (v : option text) :
  clean_search_terms (clean_search_terms v) = clean_search_terms v.
Proof.
  rewrite !clean_search_terms_eq. destruct v as [s|]; simpl; [| reflexivity].
  rewrite clean_words_fixed. reflexivity.
Qed.

(** The validators normalise once and for all: cleaning a cleaned term, or
    a cleaned [Book] text, changes nothing, the whitespace stripping that
    precedes the validator has no effect of its own, and a [SearchQuery]
    built again from its own fields is the same query. *)
Theorem validators_are_idempotent
  (title author genre format language : option text) (limit offset : Z)
  (v : text) :
  clean_search_terms (clean_search_terms title) = clean_search_terms title
  /\ clean_search_terms (option_map strip title) = clean_search_terms title
  /\ clean_text_fields (clean_text_fields v) = clean_text_fields v
  /\ exists q,
       SearchQuery_init title author genre format language limit offset = Ok q
       /\ SearchQuery_init (q_title q) (q_author q) (q_genre q) (q_format q)
                           (q_language q) (q_limit q) (q_offset q) = Ok q.
Proof.
  split; [apply clean_search_terms_idempotent |].
  split; [apply clean_search_terms_strip |].
  split.
  - assert (E : forall x, clean_text_fields x = join [" "] (split_ws [] x))
      by (intros [|c x]; reflexivity).
    rewrite !E, clean_words_fixed. reflexivity.
  - eexists. split; [reflexivity |]. unfold SearchQuery_init. simpl.
    rewrite !clean_search_terms_strip, !clean_search_terms_idempotent.
    assert (S2 : forall o, option_map strip (option_map strip o)
                           = option_map strip o).
    { intros [x|]; simpl; [rewrite strip_idempotent |]; reflexivity. }
    rewrite !S2. reflexivity.
Qed.

Lemma strip_blank (s : text) :
  Forall (fun c => isspace c = true) s -> strip s = [].
Proof.
  intro H. assert (E : lstrip s = []).
  { induction H as [|c s Hc _ IH]; simpl; [reflexivity |].
    rewrite Hc. exact IH. }
  unfold strip. rewrite E. reflexivity.
Qed.

(** A title, author or genre made of whitespace only is no filter: the
    query it gives has the conditions, the count and the page of the query
    without that term. *)
Theorem blank_terms_are_no_filter (fts : text -> result (list Z))
  (s : Session) (blank : text) (author genre format language : option text)
  (limit offset : Z) :
  Forall (fun c => isspace c = true) blank ->
  exists q q0,
    SearchQuery_init (Some blank) author genre format language limit offset
    = Ok q
    /\ SearchQuery_init None author genre format language limit offset = Ok q0
    /\ q_title q = Some []
    /\ conditions fts q = conditions fts q0
    /\ total_count (search fts s q) = total_count (search fts s q0)
    /\ sr_books (search fts s q) = sr_books (search fts s q0).
Proof.
  intro Hblank. eexists. eexists.
  split; [reflexivity |]. split; [reflexivity |].
  assert (Ht : clean_search_terms (option_map strip (Some blank)) = Some []).
  { simpl. rewrite (strip_blank blank Hblank). reflexivity. }
  assert (Hc : forall a b c d lim off,
             conditions fts
               {| q_title := clean_search_terms (option_map strip (Some blank));
                  q_author := a; q_genre := b; q_format := c;
                  q_language := d; q_limit := lim; q_offset := off |}
             = conditions fts
               {| q_title := clean_search_terms (option_map strip None);
                  q_author := a; q_genre := b; q_format := c;
                  q_language := d; q_limit := lim; q_offset := off |}).
  { intros. unfold conditions. cbn [q_title]. rewrite Ht. reflexivity. }
  split; [exact Ht |]. split; [apply Hc |].
  unfold search, matching. cbn [total_count sr_books q_limit q_offset].
  rewrite Hc. split; reflexivity.
Qed.

Lemma blank_terms_are_no_filter_witness :
  exists q,
    SearchQuery_init (Some (txt "   ")) None None None (Some (txt "ru")) 20 40
    = Ok q
    /\ total_count (search fts_finds_nothing (session_of sixty_books) q)
       = 55%nat.
Proof.
  assert (Hb : Forall (fun c => isspace c = true) (txt "   "))
    by (repeat constructor).
  destruct (blank_terms_are_no_filter fts_finds_nothing
              (session_of sixty_books) (txt "   ") None None None
              (Some (txt "ru")) 20 40 Hb)
    as [q [q0 [Hq [Hq0 [_ [_ [Hcount _]]]]]]].
  exists q. split; [exact Hq |]. rewrite Hcount.
  inversion Hq0; subst q0. vm_compute. reflexivity.
Defined.

End ModelsExtras.

(** ** Further properties of the parser and of extraction *)

Module ParserExtras.
Import PyStr Parser Exn Store PyStrFacts Samples.

(** The parser reads the fields 0, 1, 2, 5, 6, 9, 10 and 11 and nothing
    else: two lines of at least 12 fields that agree on these give the same
    result. *)
Theorem parser_reads_the_mapped_fields (line1 line2 archive_name : text) :
  (12 <= List.length (split SEP (strip line1)))%nat ->
  (12 <= List.length (split SEP (strip line2)))%nat ->
  (forall k, In k [0; 1; 2; 5; 6; 9; 10; 11]%nat ->
             nth k (split SEP (strip line1)) []
             = nth k (split SEP (strip line2)) []) ->
  _parse_book_metadata line1 archive_name
  = _parse_book_metadata line2 archive_name.
Proof.
  intros H1 H2 Heq. unfold _parse_book_metadata. cbv zeta.
  apply Nat.ltb_ge in H1, H2. rewrite H1, H2. unfold field.
  rewrite (Heq 0%nat), (Heq 1%nat), (Heq 2%nat), (Heq 5%nat), (Heq 6%nat),
    (Heq 9%nat), (Heq 10%nat), (Heq 11%nat) by (simpl; tauto).
  reflexivity.
Qed.

Lemma parser_reads_the_mapped_fields_witness :
  _parse_book_metadata line_tolstoy archive_a
  = _parse_book_metadata line_tolstoy_padded archive_a.
Proof.
  apply parser_reads_the_mapped_fields.
  - vm_compute. lia.
  - vm_compute. lia.
  - intros k Hk. simpl in Hk.
    repeat (destruct Hk as [Hk | Hk]; [subst k; vm_compute; reflexivity |]).
    destruct Hk.
Defined.

End ParserExtras.

Module ExtractionExtras.
Import PyStr Exn Store ExtractionEngine ExtractionPlan PyStrFacts
       ExtractionSpec Samples.

(** The sanitised author and title hold only letters, digits, spaces,
    hyphens and underscores, so no path separator, and are trimmed; the
    output name is the two of them around [" - "], then a dot and the
    format as the record has it. *)
Theorem safe_name_is_safe (s : text) (book_record : BookRecord) :
  (forall c, In c (safe_name s) ->
             isalnum c = true \/ c = " " \/ c = "-" \/ c = "_")
  /\ ~ In "/" (safe_name s)
  /\ strip (safe_name s) = safe_name s
  /\ extracted_filename_of book_record
     = safe_name (br_author book_record) ++ txt " - "
       ++ safe_name (br_title book_record) ++ ["."] ++ br_format book_record.
Proof.
  assert (H : forall c, In c (safe_name s) ->
                isalnum c = true \/ c = " " \/ c = "-" \/ c = "_").
  { intros c Hin. unfold safe_name in Hin. apply strip_incl in Hin.
    apply filter_In in Hin. destruct Hin as [_ Hc].
    apply orb_true_iff in Hc. destruct Hc as [Hc | Hc];
      [| right; right; right; apply Ascii.eqb_eq in Hc; exact Hc].
    apply orb_true_iff in Hc. destruct Hc as [Hc | Hc];
      [| right; right; left; apply Ascii.eqb_eq in Hc; exact Hc].
    apply orb_true_iff in Hc. destruct Hc as [Hc | Hc];
      [left; exact Hc | right; left; apply Ascii.eqb_eq in Hc; exact Hc]. }
  split; [exact H |]. split; [| split; [| reflexivity]].
  - intro Hin. destruct (H _ Hin) as [Hc | [Hc | [Hc | Hc]]]; discriminate.
  - unfold safe_name. apply strip_idempotent.
Qed.

(** The sanitisation example: title ["Book: Part One?"] by ["J. Doe"]. *)
Lemma sanitised_name_example :
  extracted_filename_of part_one = txt "J Doe - Book Part One.fb2".
Proof. reflexivity. Qed.

Ltac run_plan :=
  unfold try_except, bind, call, assign_locals, modify, ret, get; simpl.

(** Whatever the disk does, the calls [extract_book] has made when it
    returns are an initial part of the same three, in the same order, all
    inside the output directory: a member is renamed only after it was
    extracted.  Nothing is done for an unknown id, and a result with
    [success] set means all three were made and the result names the
    renamed file. *)
Theorem extraction_follows_the_plan (cfg : Paths) (fs : FileSystem)
  (s : Session) (id : Z) :
  (find (fun r => br_id r =? id) (books s) = None ->
   effects (fst (extract_book cfg fs s id empty_frame)) = [])
  /\ (forall rec,
        find (fun r => br_id r =? id) (books s) = Some rec ->
        (exists k,
           effects (fst (extract_book cfg fs s id empty_frame))
           = firstn k (planned_effects cfg id rec))
        /\ (forall res,
              snd (extract_book cfg fs s id empty_frame) = Ok res ->
              success res = true ->
              effects (fst (extract_book cfg fs s id empty_frame))
              = planned_effects cfg id rec
              /\ file_path res
                 = joinpath (extract_path cfg) (extracted_filename res)
              /\ original_filename res
                 = str_of_int id ++ ["."] ++ br_format rec)).
Proof.
  unfold extract_book, planned_effects.
  destruct (find (fun r => br_id r =? id) (books s)) as [rec|] eqn:Hfind.
  2:{ split; [reflexivity | intros ? H; discriminate H]. }
  split; [intro H; discriminate H |].
  intros rec0 Hrec. inversion Hrec; subst rec0. clear Hrec. cbv zeta.
  destruct (fs_mkdir fs (extract_path cfg)) as [[]|m1] eqn:E1.
  2:{ run_plan. split; [exists 0%nat; reflexivity |].
      intros res H Hs. inversion H; subst. discriminate Hs. }
  destruct (fs_exists fs (archive_path_of cfg rec)) eqn:E2.
  2:{ run_plan. split; [exists 1%nat; reflexivity |].
      intros res H Hs. inversion H; subst. discriminate Hs. }
  destruct (fs_zip_open fs (archive_path_of cfg rec)) as [[]|m3] eqn:E3.
  2:{ run_plan. split; [exists 1%nat; reflexivity |].
      intros res H Hs. inversion H; subst. discriminate Hs. }
  destruct (fs_zip_extract fs (archive_path_of cfg rec)
              (original_filename_of id rec) (extract_path cfg))
    as [[]|m4] eqn:E4.
  2:{ run_plan. split; [exists 1%nat; reflexivity |].
      intros res H Hs. inversion H; subst. discriminate Hs. }
  destruct (fs_rename fs
              (joinpath (extract_path cfg) (original_filename_of id rec))
              (extracted_path_of cfg rec)) as [[]|m5] eqn:E5.
  2:{ run_plan. split; [exists 2%nat; reflexivity |].
      intros res H Hs. inversion H; subst. discriminate Hs. }
  destruct (fs_stat_size fs (extracted_path_of cfg rec)) as [size|m6] eqn:E6.
  2:{ run_plan. split; [exists 3%nat; reflexivity |].
      intros res H Hs. inversion H; subst. discriminate Hs. }
  run_plan. split; [exists 3%nat; reflexivity |].
  intros res H Hs. inversion H; subst. simpl. repeat split.
Qed.

Lemma extraction_follows_the_plan_witness :
  effects (fst (extract_book paths disk_ok (session_of [karenina]) 42
                  empty_frame))
  = planned_effects paths 42 karenina.
Proof.
  destruct (proj2 (extraction_follows_the_plan paths disk_ok
                     (session_of [karenina]) 42) karenina eq_refl)
    as [_ H].
  exact (proj1 (H _ eq_refl eq_refl)).
Defined.

End ExtractionExtras.

(** ** Statistics *)

Module StatsExtras.
Import PyStr Exn Store Builder Stats Samples.

Lemma list_sum_add {A} (f g : A -> nat) (l : list A) :
  list_sum (map (fun k => (f k + g k)%nat) l)
  = (list_sum (map f l) + list_sum (map g l))%nat.
Proof. induction l as [|x l IH]; simpl; [reflexivity | rewrite IH; lia]. Qed.

Lemma indicator_zero (a : text) (ks : list text) :
  ~ In a ks ->
  list_sum (map (fun k => if text_dec a k then 1 else 0)%nat ks) = 0%nat.
Proof.
  induction ks as [|k ks IH]; simpl; intro H; [reflexivity |].
  destruct (text_dec a k) as [E | E]; [exfalso; apply H; left; auto |].
  apply IH. intro Hin. apply H. right. exact Hin.
Qed.

Lemma indicator_one (a : text) (ks : list text) :
  NoDup ks -> In a ks ->
  list_sum (map (fun k => if text_dec a k then 1 else 0)%nat ks) = 1%nat.
Proof.
  induction 1 as [|k ks Hk Hnd IH]; simpl; intro Hin; [contradiction |].
  destruct (text_dec a k) as [E | E].
  - subst k. rewrite (indicator_zero a ks Hk). reflexivity.
  - destruct Hin as [Hin | Hin]; [congruence | apply IH, Hin].
Qed.

(** Counting each key of a duplicate-free list that covers [l] counts
    every element of [l] once. *)
Lemma counts_add_up (ks l : list text) :
  NoDup ks -> incl l ks ->
  list_sum (map (count_occ text_dec l) ks) = List.length l.
Proof.
  intro Hnd. induction l as [|a l IH]; intro Hincl.
  - clear Hnd Hincl. induction ks as [|k ks IHks]; simpl;
      [reflexivity | exact IHks].
  - assert (E : map (count_occ text_dec (a :: l)) ks
                = map (fun k => ((if text_dec a k then 1 else 0)
                                 + count_occ text_dec l k)%nat) ks).
    { apply map_ext. intro k. simpl. destruct (text_dec a k); reflexivity. }
    rewrite E, list_sum_add, IH.
    + rewrite (indicator_one a ks Hnd); [reflexivity |].
      apply Hincl. left. reflexivity.
    + intros x Hx. apply Hincl. right. exact Hx.
Qed.

Lemma group_count_total (values : list text) :
  list_sum (map snd (group_count values)) = List.length values.
Proof.
  unfold group_count. rewrite map_map. simpl.
  apply counts_add_up; [apply NoDup_nodup |].
  intros x Hx. apply nodup_In. exact Hx.
Qed.

Lemma group_count_keys (values : list text) :
  map fst (group_count values) = nodup text_dec values.
Proof.
  unfold group_count. rewrite map_map. simpl. apply map_id.
Qed.

Lemma count_distinct_le (values : list text) :
  (count_distinct values <= List.length values)%nat.
Proof.
  unfold count_distinct. apply NoDup_incl_length; [apply NoDup_nodup |].
  intros x Hx. apply nodup_In in Hx. exact Hx.
Qed.

Lemma non_null_length (values : list (option text)) :
  (List.length (non_null values) <= List.length values)%nat.
Proof.
  induction values as [|[v|] rest IH]; simpl; lia.
Qed.

Lemma group_count_positive (values : list text) (k : text) (n : nat) :
  In (k, n) (group_count values) ->
  In k values /\ (1 <= n)%nat /\ n = count_occ text_dec values k.
Proof.
  unfold group_count. intro H. apply in_map_iff in H.
  destruct H as [k' [E Hin]]. inversion E; subst. apply nodup_In in Hin.
  split; [exact Hin |]. split; [| reflexivity].
  apply (count_occ_In text_dec) in Hin. lia.
Qed.

(** The statistics agree with each other: the counts per language add up
    to [total_books], and so do the counts per format; each language is
    listed once, with the number of its books, which is at least 1; there
    are no more authors or genres than books; and an empty table gives
    zeros and empty maps. *)
Theorem stats_are_consistent (database_size : nat) (s : Session) :
  list_sum (map snd (languages (get_stats database_size s)))
  = total_books (get_stats database_size s)
  /\ list_sum (map snd (formats (get_stats database_size s)))
     = total_books (get_stats database_size s)
  /\ NoDup (map fst (languages (get_stats database_size s)))
  /\ (forall r, In r (books s) ->
        In (br_language r,
            count_occ text_dec (map br_language (books s)) (br_language r))
           (languages (get_stats database_size s)))
  /\ (forall k n, In (k, n) (languages (get_stats database_size s)) ->
        (1 <= n)%nat /\ n = count_occ text_dec (map br_language (books s)) k)
  /\ (total_authors (get_stats database_size s)
      <= total_books (get_stats database_size s))%nat
  /\ (total_genres (get_stats database_size s)
      <= total_books (get_stats database_size s))%nat
  /\ (books s = [] ->
      get_stats database_size s
      = {| total_books := 0; total_authors := 0; total_genres := 0;
           languages := []; formats := []; index_size := database_size;
           index_file_checksum := _get_stored_checksum s |}).
Proof.
  unfold get_stats. cbn [languages formats total_books total_authors
                         total_genres].
  split; [rewrite group_count_total; apply length_map |].
  split; [rewrite group_count_total; apply length_map |].
  split; [rewrite group_count_keys; apply NoDup_nodup |].
  split.
  - intros r Hr. unfold group_count. apply in_map_iff.
    exists (br_language r). split; [reflexivity |].
    apply nodup_In, in_map, Hr.
  - split.
    + intros k n H. apply group_count_positive in H. tauto.
    + split; [| split].
      * rewrite <- (length_map br_author). apply count_distinct_le.
      * eapply Nat.le_trans; [apply count_distinct_le |].
        rewrite <- (length_map br_genre). apply non_null_length.
      * intro H. rewrite H. reflexivity.
Qed.

End StatsExtras.

(** ** The web routes *)

Module WebExtras.
Import PyStr Exn Store Query ExtractionEngine Models Web QueryFacts QuerySpec
       QueryExtras Samples.

(** [POST /api/extract/{book_id}] answers with the extraction result
    exactly when [extract_book] returned one with [success] set; every
    other call, the unknown id included, ends in status 500: the 404 raised
    inside the [try] is caught by its own [except Exception].  The same
    holds for [GET /extract/{book_id}]. *)
Theorem extract_routes_never_answer_404 (cfg : Paths) (fs : FileSystem)
  (s : Session) (id : Z) (fr : Frame) :
  (forall res,
     snd (api_extract_book cfg fs s id fr) = Returned res
     <-> snd (extract_book cfg fs s id fr) = Ok res /\ success res = true)
  /\ ((exists res, snd (api_extract_book cfg fs s id fr) = Returned res)
      \/ snd (api_extract_book cfg fs s id fr) = Raised EXTRACTION_FAILED)
  /\ (find (fun r => br_id r =? id) (books s) = None ->
      snd (api_extract_book cfg fs s id fr) = Raised EXTRACTION_FAILED
      /\ snd (web_extract_book cfg fs s id fr) = Raised EXTRACTION_FAILED)
  /\ (forall res,
        snd (extract_book cfg fs s id fr) = Ok res /\ success res = true ->
        snd (web_extract_book cfg fs s id fr) = Returned (octet_stream res))
  /\ fst (api_extract_book cfg fs s id fr) = fst (extract_book cfg fs s id fr)
  /\ fst (web_extract_book cfg fs s id fr) = fst (extract_book cfg fs s id fr).
Proof.
  unfold api_extract_book, web_extract_book, call_extract_book,
    except_exception, EXTRACTION_FAILED.
  split; [| split; [| split; [| split; [| split]]]].
  - intro res. destruct (extract_book cfg fs s id fr) as [fr' [r|msg]]; simpl.
    + destruct (success r) eqn:E; simpl.
      * split; [intro H; inversion H; subst; auto |].
        intros [H _]. inversion H. reflexivity.
      * split; [discriminate |]. intros [H Hs]. inversion H; subst.
        congruence.
    + split; [discriminate | intros [H _]; discriminate].
  - destruct (extract_book cfg fs s id fr) as [fr' [r|msg]]; simpl.
    + destruct (success r); simpl; [left; eexists; reflexivity | right].
      reflexivity.
    + right. reflexivity.
  - intro Hfind. unfold extract_book. rewrite Hfind. unfold ret. simpl.
    split; reflexivity.
  - intros res [H Hs].
    destruct (extract_book cfg fs s id fr) as [fr' [r|msg]]; simpl in *;
      [| discriminate].
    inversion H; subst. rewrite Hs. reflexivity.
  - destruct (extract_book cfg fs s id fr) as [fr' [r|msg]]; reflexivity.
  - destruct (extract_book cfg fs s id fr) as [fr' [r|msg]]; reflexivity.
Qed.

Lemma extract_routes_never_answer_404_witness :
  snd (api_extract_book paths disk_ok (session_of [karenina]) 43 empty_frame)
  = Raised EXTRACTION_FAILED.
Proof.
  exact (proj1 (proj1 (proj2 (proj2 (extract_routes_never_answer_404 paths
           disk_ok (session_of [karenina]) 43 empty_frame))) eq_refl)).
Defined.

(** [GET /api/books/{book_id}] never returns a book: it ends in status 500
    for every id, after it has run the extraction, whose effects on disk
    remain. *)
Theorem get_book_always_fails (fts : text -> result (list Z)) (cfg : Paths)
  (fs : FileSystem) (s : Session) (id : Z) (fr : Frame) :
  snd (api_get_book fts cfg fs s id fr)
  = Raised (HTTPException 500 (Some (txt "Failed to get book")))
  /\ fst (api_get_book fts cfg fs s id fr)
     = fst (extract_book cfg fs s id fr).
Proof.
  unfold api_get_book, call_extract_book, except_exception. cbv zeta.
  destruct (extract_book cfg fs s id fr) as [fr' [r|msg]]; simpl.
  - destruct (success r); simpl; split; reflexivity.
  - split; reflexivity.
Qed.

(** [GET /api/download/{book_id}] sends the file exactly when extraction
    succeeded and the extracted file exists; otherwise it ends in status
    500. *)
Theorem download_sends_the_extracted_file (cfg : Paths) (fs : FileSystem)
  (s : Session) (id : Z) (fr : Frame) :
  (forall res,
     snd (extract_book cfg fs s id fr) = Ok res ->
     success res = true ->
     fs_exists fs (file_path res) = true ->
     snd (api_download_book cfg fs s id fr)
     = Returned {| fr_path := file_path res;
                   fr_filename := extracted_filename res;
                   fr_media_type := txt "application/octet-stream" |})
  /\ ((forall res,
         snd (extract_book cfg fs s id fr) = Ok res ->
         success res = false \/ fs_exists fs (file_path res) = false) ->
      snd (api_download_book cfg fs s id fr)
      = Raised (HTTPException 500 (Some (txt "Download failed")))).
Proof.
  unfold api_download_book, call_extract_book, except_exception.
  split.
  - intros res H Hs He.
    destruct (extract_book cfg fs s id fr) as [fr' [r|msg]]; simpl in *;
      [| discriminate].
    inversion H; subst. rewrite Hs, He. reflexivity.
  - intro H. destruct (extract_book cfg fs s id fr) as [fr' [r|msg]];
      simpl in *; [| reflexivity].
    destruct (H r eq_refl) as [E | E]; rewrite E; simpl; [reflexivity |].
    destruct (success r); reflexivity.
Qed.

Lemma download_sends_the_extracted_file_witness :
  snd (api_download_book paths disk_ok (session_of [karenina]) 42 empty_frame)
  = Returned {| fr_path := txt "data/books/Tolstoy Leo - Anna Karenina.fb2";
                fr_filename := txt "Tolstoy Leo - Anna Karenina.fb2";
                fr_media_type := txt "application/octet-stream" |}.
Proof.
  exact (proj1 (download_sends_the_extracted_file paths disk_ok
                  (session_of [karenina]) 42 empty_frame)
           _ eq_refl eq_refl eq_refl).
Defined.






(** Without a title, an author or a genre [/search] searches nothing: a
    language or format on its own gives an empty page and zero pages,
    whatever the table holds. *)
Theorem web_search_needs_a_text_term (fts : text -> result (list Z))
  (s : Session) (title author language genre format : option text)
  (page : Z) :
  truthy title || truthy author || truthy genre = false ->
  1 <= page ->
  exists ctx,
    web_search fts s title author language genre format page
    = Returned (SearchResults ctx)
    /\ sr_books (sp_result ctx) = []
    /\ total_count (sp_result ctx) = 0%nat
    /\ total_pages ctx = 0
    /\ has_next ctx = false.
Proof.
  intros Hnone Hpage. unfold web_search.
  assert (E : (page <? 1) = false) by (apply Z.ltb_ge; lia).
  rewrite E, Hnone. cbv zeta. eexists. split; [reflexivity |].
  cbn [sp_result sr_books total_count total_pages has_next].
  split; [reflexivity |]. split; [reflexivity |]. split; [reflexivity |].
  apply Z.ltb_ge. change (0 <= page). lia.
Qed.

Lemma web_search_needs_a_text_term_witness :
  web_search_books fts_finds_nothing (session_of sixty_books)
    None None (Some (txt "ru")) None None 1 = [].
Proof.
  destruct (web_search_needs_a_text_term fts_finds_nothing
              (session_of sixty_books) None None (Some (txt "ru")) None None 1
              eq_refl) as [ctx [H [Hb _]]]; [lia |].
  unfold web_search_books. rewrite H. exact Hb.
Defined.

End WebExtras.

(** ** The command line *)

Module CliExtras.
Import PyStr Exn Store Query Cli QueryFacts QuerySpec Samples.

(** With a limit and an offset that are not negative, the number of
    further results the table announces is never negative: it is the
    number of matching records that come after the page.  The line is
    printed whenever the page shows fewer books than match, also on a last
    page, where it announces 0. *)
Theorem table_announces_what_comes_after (fts : text -> result (list Z))
  (s : Session) (q : SearchQuery) :
  0 <= q_offset q -> 0 <= q_limit q ->
  (forall n,
     _output_table_remaining (search fts s q) = Some n ->
     0 <= n
     /\ n = Z.of_nat (List.length
                        (skipn (Z.to_nat (q_offset q) + Z.to_nat (q_limit q))
                               (matching fts q (books s)))))
  /\ (sr_books (search fts s q) <> [] ->
      (List.length (sr_books (search fts s q))
       < total_count (search fts s q))%nat ->
      exists n, _output_table_remaining (search fts s q) = Some n).
Proof.
  intros Ho Hl.
  pose proof (page_length (q_limit q) (q_offset q)
                (matching fts q (books s)) Ho Hl) as Hlen.
  unfold _output_table_remaining, search.
  cbn [sr_books total_count sr_query].
  rewrite length_map, Hlen. split.
  - intros n H.
    destruct (map to_book _) as [|b rest] eqn:Hpage; [discriminate |].
    assert (Hne : (0 < Nat.min (Z.to_nat (q_limit q))
                       (List.length (matching fts q (books s))
                        - Z.to_nat (q_offset q)))%nat).
    { rewrite <- Hlen, <- (length_map to_book), Hpage. simpl. lia. }
    destruct (_ <? _) eqn:E; [| discriminate].
    inversion H; subst n. rewrite length_skipn. lia.
  - intros Hne Hlt.
    destruct (map to_book _) as [|b rest]; [contradiction |].
    apply Nat2Z.inj_lt, Z.ltb_lt in Hlt. rewrite Hlt. eexists. reflexivity.
Qed.

Lemma table_announces_what_comes_after_witness :
  _output_table_remaining
    (search fts_finds_nothing (session_of sixty_books) query_third_page)
  = Some 0.
Proof.
  pose proof (table_announces_what_comes_after fts_finds_nothing
                (session_of sixty_books) query_third_page) as T.
  assert (H : exists n, _output_table_remaining
                (search fts_finds_nothing (session_of sixty_books)
                   query_third_page) = Some n).
  { apply T; [vm_compute; discriminate | vm_compute; discriminate
             | vm_compute; discriminate | vm_compute; lia]. }
  destruct H as [n Hn]. rewrite Hn. vm_compute in Hn.
  inversion Hn. reflexivity.
Defined.

End CliExtras.

(** ** The OPDS catalog *)

Module OpdsExtras.
Import PyStr Parser Exn Store Query ExtractionEngine Models Web Opds
       PyStrFacts QueryFacts QuerySpec QueryExtras ModelsExtras Samples.













(** A limit of 0 makes [generate_search_results] divide by zero; the
    exception is caught and the feed is the one of the [except] clause,
    without entries and without counts, whatever matches. *)
Theorem zero_limit_gives_the_error_feed (fts : text -> result (list Z))
  (s : Session) (base_url query : text) (offset : Z) :
  generate_search_results fts s base_url query 0 offset
  = search_error_feed base_url query
  /\ entries (generate_search_results fts s base_url query 0 offset) = []
  /\ total_results (generate_search_results fts s base_url query 0 offset)
     = None.
Proof.
  assert (H : generate_search_results fts s base_url query 0 offset
              = search_error_feed base_url query).
  { unfold generate_search_results, search_results_body, SearchQuery_init,
      floordiv. cbv zeta. simpl (0 =? 0).
    destruct (0 <? Z.of_nat _); reflexivity. }
  rewrite H. repeat split.
Qed.



Lemma split_without_separator (sep : ascii) (s : text) :
  ~ In sep s -> split sep s = [s].
Proof.
  induction s as [|c s IH]; intro H; [reflexivity |].
  simpl. destruct (Ascii.eqb c sep) eqn:E.
  - apply Ascii.eqb_eq in E. exfalso. apply H. left. exact E.
  - rewrite IH; [reflexivity |]. intro Hin. apply H. right. exact Hin.
Qed.

Lemma join_chars (sep : text) (ws : list text) (c : ascii) :
  In c (join sep ws) -> In c sep \/ exists w, In w ws /\ In c w.
Proof.
  induction ws as [|p rest IH]; [intros [] |].
  destruct rest as [|q rest].
  - simpl. intro H. right. exists p. auto.
  - change (join sep (p :: q :: rest)) with (p ++ sep ++ join sep (q :: rest)).
    rewrite !in_app_iff. intros [H | [H | H]].
    + right. exists p. split; [left; reflexivity | exact H].
    + left. exact H.
    + destruct (IH H) as [Hs | [w [Hw Hc]]]; [left; exact Hs |].
      right. exists w. split; [right; exact Hw | exact Hc].
Qed.

Lemma split_ws_chars (s : text) :
  forall cur w c, In w (split_ws cur s) -> In c w -> In c cur \/ In c s.
Proof.
  induction s as [|x s IH]; intros cur w c Hw Hc; simpl in Hw.
  - destruct cur as [|y cur]; [destruct Hw |].
    destruct Hw as [Hw | []]. subst w. left. apply in_rev. exact Hc.
  - destruct (isspace x).
    + destruct cur as [|y cur].
      * destruct (IH [] w c Hw Hc) as [[] | H]. right. right. exact H.
      * destruct Hw as [Hw | Hw].
        -- subst w. left. apply in_rev. exact Hc.
        -- destruct (IH [] w c Hw Hc) as [[] | H]. right. right. exact H.
    + destruct (IH (x :: cur) w c Hw Hc) as [[H | H] | H].
      * right. left. exact H.
      * left. exact H.
      * right. right. exact H.
Qed.

Lemma split_ws_started (s : text) :
  forall cur, cur <> [] -> split_ws cur s <> [].
Proof.
  induction s as [|x s IH]; intros cur Hcur; simpl.
  - destruct cur; [contradiction | discriminate].
  - destruct (isspace x).
    + destruct cur; [contradiction | discriminate].
    + apply IH. discriminate.
Qed.

Lemma clean_text_fields_chars (v : text) (c : ascii) :
  In c (clean_text_fields v) -> c = " " \/ In c v.
Proof.
  destruct v as [|x v]; [intros [] |].
  unfold clean_text_fields. intro H. apply join_chars in H.
  destruct H as [[H | []] | [w [Hw Hc]]]; [left; symmetry; exact H |].
  destruct (split_ws_chars _ _ _ _ Hw Hc) as [[] | H]. right. exact H.
Qed.

Lemma clean_text_fields_not_empty (v : text) :
  v <> [] -> strip v = v -> clean_text_fields v <> [].
Proof.
  intros Hne Hstrip.
  assert (Hhead : match v with [] => True | c :: _ => isspace c = false end).
  { rewrite <- Hstrip, <- lstrip_strip. apply lstrip_head. }
  destruct v as [|x v]; [contradiction |].
  unfold clean_text_fields. simpl split_ws. rewrite Hhead.
  pose proof (split_ws_started v [x] ltac:(discriminate)) as Hs.
  pose proof (split_ws_words v [x]
                ltac:(constructor; [exact Hhead | constructor])) as Hw.
  destruct (split_ws [x] v) as [|w ws]; [contradiction |].
  inversion Hw as [|? ? [Hwne _] _]; subst.
  destruct w as [|y w]; [contradiction |].
  destruct ws; simpl; discriminate.
Qed.

(** The parser takes every comma out of the author, so the OPDS entry of a
    record that carries a parsed author names exactly one author, the whole
    author text as the [Book] has it, and that text is not empty. *)
Theorem indexed_author_is_one_opds_author (line archive_name : text)
  (bd : BookData) (r : BookRecord) (base_url : text) :
  _parse_book_metadata line archive_name = Some bd ->
  br_author r = bd_author bd ->
  authors (book_to_opds_entry (to_book r) base_url) = [b_author (to_book r)]
  /\ b_author (to_book r) <> []
  /\ ~ In "," (b_author (to_book r)).
Proof.
  intros Hparse Hauthor.
  destruct (ParserSpec.parse_some_inv line archive_name bd Hparse)
    as [_ [Ha [_ [_ [_ [_ [_ [_ [_ Hne]]]]]]]]].
  cbv zeta in Ha.
  assert (Hstrip : strip (bd_author bd) = bd_author bd)
    by (rewrite Ha; unfold clean_author; apply strip_idempotent).
  assert (Hcomma : ~ In "," (bd_author bd)).
  { rewrite Ha. unfold clean_author. intro Hin.
    apply strip_incl, remove_incl in Hin. revert Hin.
    apply replace_not_in. discriminate. }
  assert (Hne' : b_author (to_book r) <> []).
  { simpl. rewrite Hauthor. apply clean_text_fields_not_empty; assumption. }
  assert (Hcomma' : ~ In "," (b_author (to_book r))).
  { simpl. rewrite Hauthor. intro Hin.
    apply clean_text_fields_chars in Hin. destruct Hin as [H | H];
      [discriminate | contradiction]. }
  split; [| split; assumption].
  unfold book_to_opds_entry. cbn [authors].
  destruct (b_author (to_book r)) as [|c a] eqn:E; [contradiction |].
  apply split_without_separator. exact Hcomma'.
Qed.

Lemma indexed_author_is_one_opds_author_witness :
  authors (book_to_opds_entry (to_book karenina) (txt "http://localhost"))
  = [txt "Tolstoy Leo"].
Proof.
  exact (proj1 (indexed_author_is_one_opds_author line_tolstoy archive_a _
                  karenina (txt "http://localhost") eq_refl eq_refl)).
Defined.

End OpdsExtras.
